(** * Verification of the coordination layer of the offline SEO engine

    Shallow embedding of the Python sources under [src/app]:
    - [robots_manager.py]: [RobotsRules.is_allowed], [RobotsManager._parse_robots],
      [RobotsManager.ensure_rules];
    - [ranking.py]: [compute_decay_hours], [compute_ranking_score];
    - [search_api.py]: [track_click] with [CLICK_UPDATE_SCRIPT], [apply_decay]
      with [DECAY_SCRIPT];
    - [crawler.py]: [Crawler.normalize_url], [Crawler.fetch] and the frontier
      operations [_mark_enqueued], [_mark_visited], [_increment_pages].

    Python [str] values are Rocq [string]s (one [ascii] per code point,
    code points 0..255); Python [int]s are [Z]; Python [float]s and
    Painless [double]s are modelled by real numbers [R]. *)

From Stdlib Require Import Reals Lra.
From stdpp Require Import gmap strings list.
From Stdlib Require Import Ascii String ZArith.

Open Scope string_scope.

(* ===================================================================== *)
(** ** Python string primitives used by the robots code *)
(* ===================================================================== *)

Module Py.

(** [s.startswith(prefix)] *)
Fixpoint startswith (s pre : string) : bool :=
  match pre, s with
  | EmptyString, _ => true
  | String c pre', String d s' => Ascii.eqb c d && startswith s' pre'
  | String _ _, EmptyString => false
  end.

(** Truthiness of a [str]: only the empty string is falsy. *)
Definition truthy (s : string) : bool :=
  match s with EmptyString => false | String _ _ => true end.

(** [max(xs, default=d)] on a list of ints. *)
Definition max_default (xs : list Z) (d : Z) : Z :=
  match xs with
  | [] => d
  | x :: xs' => fold_left Z.max xs' x
  end.

(** [c.isspace()] for code points 0..255. *)
Definition isspace (c : ascii) : bool :=
  let n := nat_of_ascii c in
  (n =? 32)%nat || ((9 <=? n) && (n <=? 13))%nat
  || ((28 <=? n) && (n <=? 31))%nat || (n =? 133)%nat || (n =? 160)%nat.

(** Line boundaries recognised by [str.splitlines] among code points 0..255
    ([\r\n] is handled as one boundary in [splitlines_aux]). *)
Definition is_line_break (c : ascii) : bool :=
  let n := nat_of_ascii c in
  ((10 <=? n) && (n <=? 13))%nat || ((28 <=? n) && (n <=? 30))%nat
  || (n =? 133)%nat.

Definition snoc (s : string) (c : ascii) : string := s ++ String c EmptyString.

Fixpoint splitlines_aux (s cur : string) : list string :=
  match s with
  | EmptyString => if truthy cur then [cur] else []
  | String c rest =>
      if Ascii.eqb c "013"%char then
        match rest with
        | String d rest' =>
            if Ascii.eqb d "010"%char then cur :: splitlines_aux rest' ""
            else cur :: splitlines_aux rest ""
        | EmptyString => cur :: splitlines_aux rest ""
        end
      else if is_line_break c then cur :: splitlines_aux rest ""
      else splitlines_aux rest (snoc cur c)
  end.

(** [s.splitlines()] *)
Definition splitlines (s : string) : list string := splitlines_aux s "".

Fixpoint lstrip (s : string) : string :=
  match s with
  | String c s' => if isspace c then lstrip s' else s
  | EmptyString => EmptyString
  end.

Fixpoint rstrip_rev (l : list ascii) : list ascii :=
  match l with
  | c :: l' => if isspace c then rstrip_rev l' else l
  | [] => []
  end.

(** [s.strip()] *)
Definition strip (s : string) : string :=
  string_of_list_ascii (rev (rstrip_rev (rev (list_ascii_of_string (lstrip s))))).

(** [s.split(sep, 1)]: the part before the first [sep], and the rest
    after it when [sep] occurs. *)
Fixpoint split1 (sep : ascii) (s : string) : string * option string :=
  match s with
  | EmptyString => (EmptyString, None)
  | String c s' =>
      if Ascii.eqb c sep then (EmptyString, Some s')
      else let (a, b) := split1 sep s' in (String c a, b)
  end.

(** [sep in s] for a one-character [sep]. *)
Fixpoint contains (sep : ascii) (s : string) : bool :=
  match s with
  | EmptyString => false
  | String c s' => Ascii.eqb c sep || contains sep s'
  end.

(** [c.lower()] for code points 0..255. *)
Definition lower_char (c : ascii) : ascii :=
  let n := nat_of_ascii c in
  if ((65 <=? n) && (n <=? 90))%nat
     || ((192 <=? n) && (n <=? 222) && negb (n =? 215))%nat
  then ascii_of_nat (n + 32) else c.

Fixpoint lower (s : string) : string :=
  match s with
  | EmptyString => EmptyString
  | String c s' => String (lower_char c) (lower s')
  end.

End Py.

(* ===================================================================== *)
(** ** [RobotsRules] (robots_manager.py, lines 12-34) *)
(* ===================================================================== *)

Record RobotsRules := mkRobotsRules {
  allows : list string;
  disallows : list string;
  crawl_delay : option R;
}.

(** [RobotsRules()] *)
Definition empty_rules : RobotsRules := mkRobotsRules [] [] None.

(** The local helper of [is_allowed]:
    [max([len(rule) for rule in patterns if rule and path_value.startswith(rule)], default=-1)]. *)
Definition longest_prefix_length (path_value : string) (patterns : list string) : Z :=
  Py.max_default
    (map (fun rule => Z.of_nat (String.length rule))
       (List.filter (fun rule => Py.truthy rule && Py.startswith path_value rule) patterns))
    (-1).

Definition is_allowed (self : RobotsRules) (path : string) : bool :=
  let allow_len := longest_prefix_length path (allows self) in
  let disallow_len := longest_prefix_length path (disallows self) in
  if Z.eqb disallow_len (-1) then true
  else if Z.eqb allow_len (-1) then false
  else if Z.gtb allow_len disallow_len then true
  else if Z.ltb allow_len disallow_len then false
  else true.

(** The longest-prefix rule as the specification words it (section 4.2):
    [A] and [D] are maxima over every pattern that is a prefix of the path. *)
Definition spec_longest_prefix (p : string) (patterns : list string) : Z :=
  fold_left (fun acc r => if Py.startswith p r then Z.max acc (Z.of_nat (String.length r)) else acc)
    patterns (-1)%Z.

Definition spec_is_allowed (allows_ disallows_ : list string) (p : string) : bool :=
  let A := spec_longest_prefix p allows_ in
  let D := spec_longest_prefix p disallows_ in
  if Z.eqb D (-1) then true
  else if Z.eqb A (-1) then false
  else if Z.gtb A D then true
  else if Z.ltb A D then false
  else true.

Definition nonempty_patterns (l : list string) : list string := List.filter Py.truthy l.

(* ===================================================================== *)
(** ** [RobotsManager._parse_robots] (robots_manager.py, lines 61-111) *)
(* ===================================================================== *)

(** [rules_map]: a Python dict keyed by agent token, iterated in insertion
    order, hence an association list with unique keys. *)
Abbreviation agent_map := (list (string * RobotsRules)).

(** [rules_map.setdefault(agent, RobotsRules())] *)
Fixpoint setdefault (m : agent_map) (k : string) : agent_map :=
  match m with
  | [] => [(k, empty_rules)]
  | (k', v) :: m' => if String.eqb k' k then m else (k', v) :: setdefault m' k
  end.

(** In-place mutation of [rules_map[agent]]. *)
Fixpoint alter_agent (f : RobotsRules -> RobotsRules) (k : string) (m : agent_map) : agent_map :=
  match m with
  | [] => []
  | (k', v) :: m' => if String.eqb k' k then (k', f v) :: m' else (k', v) :: alter_agent f k m'
  end.

(** [if value: target_list.append(value)], with [target_list] the [allows]
    list when [is_allow] and the [disallows] list otherwise. *)
Definition add_pattern (is_allow : bool) (value : string) (r : RobotsRules) : RobotsRules :=
  if Py.truthy value then
    if is_allow then mkRobotsRules (allows r ++ [value])%list (disallows r) (crawl_delay r)
    else mkRobotsRules (allows r) (disallows r ++ [value])%list (crawl_delay r)
  else r.

Definition set_crawl_delay (d : R) (r : RobotsRules) : RobotsRules :=
  mkRobotsRules (allows r) (disallows r) (Some d).

Record parse_state := mkParseState {
  rules_map : agent_map;
  current_agents : list string;
  last_key : option string;
}.

Definition parse_init : parse_state := mkParseState [] [] None.

Definition is_last_user_agent (k : option string) : bool :=
  match k with Some k' => String.eqb k' "user-agent" | None => false end.

Section Parser.

(** Python's [float(value)]: [None] when it raises [ValueError]. *)
Variable py_float : string -> option R.

(** One iteration of the [for raw_line in content.splitlines()] loop;
    a [continue] returns the state unchanged (also [last_key]). *)
Definition parse_line (st : parse_state) (raw_line : string) : parse_state :=
  let line := Py.strip (fst (Py.split1 "#" raw_line)) in
  if negb (Py.truthy line) || negb (Py.contains ":" line) then st
  else
    let (k, v) := Py.split1 ":" line in
    let key := Py.strip k in
    let value := Py.strip (default "" v) in
    let key_lower := Py.lower key in
    if String.eqb key_lower "user-agent" then
      let agent := value in
      let agents :=
        if is_last_user_agent (last_key st) then (current_agents st ++ [agent])%list else [agent] in
      mkParseState (setdefault (rules_map st) agent) agents (Some key_lower)
    else if String.eqb key_lower "allow" || String.eqb key_lower "disallow" then
      match current_agents st with
      | [] => st
      | _ =>
          let m := fold_left
                     (fun m agent =>
                        alter_agent (add_pattern (String.eqb key_lower "allow") value) agent
                          (setdefault m agent))
                     (current_agents st) (rules_map st) in
          mkParseState m (current_agents st) (Some key_lower)
      end
    else if String.eqb key_lower "crawl-delay" then
      match current_agents st with
      | [] => st
      | _ =>
          match py_float value with
          | None => st
          | Some delay =>
              let m := fold_left
                         (fun m agent => alter_agent (set_crawl_delay delay) agent (setdefault m agent))
                         (current_agents st) (rules_map st) in
              mkParseState m (current_agents st) (Some key_lower)
          end
      end
    else mkParseState (rules_map st) (current_agents st) (Some key_lower).

(** [for agent, parsed_rules in rules_map.items(): if agent.lower() == user_agent_lower: ...] *)
Fixpoint select_agent (user_agent_lower : string) (m : agent_map) : option RobotsRules :=
  match m with
  | [] => None
  | (agent, r) :: m' =>
      if String.eqb (Py.lower agent) user_agent_lower then Some r
      else select_agent user_agent_lower m'
  end.

Fixpoint assoc_get (k : string) (m : agent_map) : option RobotsRules :=
  match m with
  | [] => None
  | (k', v) :: m' => if String.eqb k' k then Some v else assoc_get k m'
  end.

Definition parse_robots (user_agent : string) (content : string) : RobotsRules :=
  let st := fold_left parse_line (Py.splitlines content) parse_init in
  match select_agent (Py.lower user_agent) (rules_map st) with
  | Some r => r
  | None => match assoc_get "*" (rules_map st) with Some r => r | None => empty_rules end
  end.

End Parser.

(** The lowered key of a robots.txt line, as [parse_line] computes it;
    [None] for a line it skips (blank, comment only, or without [:]). *)
Definition robots_line_key (raw_line : string) : option string :=
  let line := Py.strip (fst (Py.split1 "#" raw_line)) in
  if negb (Py.truthy line) || negb (Py.contains ":" line) then None
  else Some (Py.lower (Py.strip (fst (Py.split1 ":" line)))).

(** [config.USER_AGENT] *)
Definition USER_AGENT : string := "OfflineSEOEngine/1.0".

(** A robots document made of one group for [*] with a bare [Disallow:]. *)
Definition bare_disallow_robots : string :=
  "User-agent: *" ++ String "010"%char "Disallow:".

(** Rules with every empty pattern removed. *)
Definition drop_empty_patterns (r : RobotsRules) : RobotsRules :=
  mkRobotsRules (nonempty_patterns (allows r)) (nonempty_patterns (disallows r)) (crawl_delay r).

(** The fold step of a longest-prefix maximum over the patterns selected by [q]. *)
Definition cond_max (q : string -> bool) (acc : Z) (r : string) : Z :=
  if q r then Z.max acc (Z.of_nat (String.length r)) else acc.

(** Invariant of the parser: no stored pattern is empty. *)
Definition rules_ok (r : RobotsRules) : Prop :=
  Forall (fun s => Py.truthy s = true) (allows r)
  /\ Forall (fun s => Py.truthy s = true) (disallows r).

Definition map_ok (m : agent_map) : Prop := Forall (fun kv => rules_ok kv.2) m.

(* ===================================================================== *)
(** ** Ranking formula (ranking.py) *)
(* ===================================================================== *)

(** [config.RANKING_DECAY_PER_HOUR] and [config.RECENT_CLICK_DECAY_MULTIPLIER] *)
Definition RANKING_DECAY_PER_HOUR : R := (5 / 100)%R.
Definition RECENT_CLICK_DECAY_MULTIPLIER : R := (85 / 100)%R.

(** [now_ms or current_time_ms()]: [clock_ms] is the value [current_time_ms()]
    would return; [None] and [0] are both falsy. *)
Definition now_or_clock (now_ms : option Z) (clock_ms : Z) : Z :=
  match now_ms with
  | Some n => if Z.eqb n 0 then clock_ms else n
  | None => clock_ms
  end.

(** [compute_decay_hours(last_clicked_at_ms, now_ms)] read at clock [clock_ms];
    [if not last_clicked_at_ms] holds for [None] and for [0]. *)
Definition compute_decay_hours (clock_ms : Z) (last_clicked_at_ms now_ms : option Z) : R :=
  let now := now_or_clock now_ms clock_ms in
  match last_clicked_at_ms with
  | None => 0%R
  | Some last =>
      if Z.eqb last 0 then 0%R
      else Rmax 0 (IZR (now - last) / 3600000)
  end.

(** [compute_ranking_score(...)] read at clock [clock_ms]; [None] when
    [math.log(clicks_total + 1)] raises (argument not positive). *)
Definition compute_ranking_score (clock_ms : Z) (clicks_total : Z) (recent_clicks : R)
    (last_clicked_at_ms now_ms : option Z) (decay_per_hour : R) : option R :=
  let now := now_or_clock now_ms clock_ms in
  let decay_hours := compute_decay_hours clock_ms last_clicked_at_ms (Some now) in
  let decay := (decay_hours * decay_per_hour)%R in
  if Z.leb (clicks_total + 1) 0 then None
  else Some (ln (IZR (clicks_total + 1)) + recent_clicks * (7 / 10) - decay)%R.

(** The formula of section 4.9 of the specification, in its words:
    [decay_hours] is [0] when [last_clicked_at_ms] is absent. *)
Definition spec_ranking_formula (clicks_total : Z) (recent_clicks : R)
    (last_clicked_at_ms : option Z) (now_ms : Z) (decay_per_hour : R) : R :=
  let decay_hours :=
    match last_clicked_at_ms with
    | None => 0%R
    | Some last => Rmax 0 (IZR (now_ms - last) / 3600000)
    end in
  (ln (IZR (clicks_total + 1)) + 7 / 10 * recent_clicks - decay_per_hour * decay_hours)%R.

(* ===================================================================== *)
(** ** Pages index and click recorder (search_api.py) *)
(* ===================================================================== *)

(** A stored page document, restricted to the fields the click and decay
    scripts read or write; a field absent from [_source] or [null] is [None]. *)
Record page_doc := mkPageDoc {
  url : string;
  title : string;
  summary : string;
  content : string;
  clicks_total : option Z;
  recent_clicks : option R;
  last_clicked_at_ms : option Z;
  last_clicked_at : option string;
  ranking_score : option R;
}.

(** [ClickEvent] *)
Record ClickEvent := mkClickEvent {
  event_url : string;
  event_user_id : option string;
  event_metadata : option (list (string * string));
}.

(** A document of the click-log index. *)
Record click_log_entry := mkClickLogEntry {
  log_url : string;
  log_user_id : option string;
  log_clicked_at : string;
  log_metadata : list (string * string);
}.

(** The search backend: the pages index keyed by URL and the click log. *)
Record es_state := mkEsState {
  pages : gmap string page_doc;
  clicks_log : list click_log_entry;
}.

(** [CLICK_UPDATE_SCRIPT] applied to the stored document [d]. *)
Definition click_update_script (now_ms : Z) (now_iso : string) (decay_per_hour : R)
    (d : page_doc) : page_doc :=
  let clicks0 := default 0%Z (clicks_total d) in
  let recent0 := default 0%R (recent_clicks d) in
  let prevLast := default now_ms (last_clicked_at_ms d) in
  let clicks1 := (clicks0 + 1)%Z in
  let recent1 := (recent0 + 1)%R in
  let decayHours := (IZR (now_ms - prevLast) / 3600000)%R in
  let decay := (decayHours * decay_per_hour)%R in
  mkPageDoc (url d) (title d) (summary d) (content d)
    (Some clicks1) (Some recent1) (Some now_ms) (Some now_iso)
    (Some (ln (IZR clicks1 + 1) + recent1 * (7 / 10) - decay)%R).

(** [es.update(index, id, script=..., upsert=upsert_doc)] *)
Definition es_update (id : string) (script : page_doc -> page_doc) (upsert_doc : page_doc)
    (m : gmap string page_doc) : gmap string page_doc :=
  match m !! id with
  | Some d => <[id := script d]> m
  | None => <[id := upsert_doc]> m
  end.

(** [track_click(event)]: [clock_ms] is [current_time_ms()] at the call and
    [now_iso] the ISO rendering of the same instant. [None] when
    [compute_ranking_score] raises. *)
Definition track_click (clock_ms : Z) (now_iso : string) (event : ClickEvent)
    (st : es_state) : option (es_state * (string * string)) :=
  let now_ms := clock_ms in
  let log := (clicks_log st ++
              [mkClickLogEntry (event_url event) (event_user_id event) now_iso
                 (default [] (event_metadata event))])%list in
  match compute_ranking_score clock_ms 1 1 (Some now_ms) (Some now_ms) RANKING_DECAY_PER_HOUR with
  | None => None
  | Some score =>
      let upsert_doc :=
        mkPageDoc (event_url event) (event_url event) "" ""
          (Some 1%Z) (Some 1%R) (Some now_ms) (Some now_iso) (Some score) in
      let pages' := es_update (event_url event)
                      (click_update_script now_ms now_iso RANKING_DECAY_PER_HOUR)
                      upsert_doc (pages st) in
      Some (mkEsState pages' log, ("tracked", event_url event))
  end.

(** [DECAY_SCRIPT] applied to one stored document. *)
Definition decay_script (now_ms : Z) (recent_click_multiplier decay_per_hour : R)
    (d : page_doc) : page_doc :=
  let recent0 := default 0%R (recent_clicks d) in
  let clicks0 := default 0%Z (clicks_total d) in
  let recent1 := (recent0 * recent_click_multiplier)%R in
  let recent2 := if Rlt_dec recent1 (1 / 100) then 0%R else recent1 in
  let last := default now_ms (last_clicked_at_ms d) in
  let decayHours := (IZR (now_ms - last) / 3600000)%R in
  let decay := (decayHours * decay_per_hour)%R in
  mkPageDoc (url d) (title d) (summary d) (content d)
    (Some clicks0) (Some recent2) (last_clicked_at_ms d) (last_clicked_at d)
    (Some (ln (IZR clicks0 + 1) + recent2 * (7 / 10) - decay)%R).

(** [apply_decay()]: an update-by-query over every document of the pages
    index, with [now_ms = current_time_ms()] read once ([clock_ms]). *)
Definition apply_decay (clock_ms : Z) (st : es_state) : es_state :=
  mkEsState (decay_script clock_ms RECENT_CLICK_DECAY_MULTIPLIER RANKING_DECAY_PER_HOUR <$> pages st)
    (clicks_log st).

(** Successive runs of [apply_decay] (the periodic decay job) with no click
    in between, at the clocks [clocks]. *)
Fixpoint apply_decays (clocks : list Z) (st : es_state) : es_state :=
  match clocks with
  | [] => st
  | c :: cs => apply_decays cs (apply_decay c st)
  end.

(* ===================================================================== *)
(** ** Frontier of the crawler (crawler.py, lines 98-118) *)
(* ===================================================================== *)

(** The shared crawler fields touched under [url_lock] and [pages_lock];
    each operation runs atomically under its lock. *)
Record Crawler_state := mkCrawlerState {
  visited : gset string;
  enqueued : gset string;
  pages_crawled : Z;
  stop_event : bool;
}.

(** [_mark_enqueued(url)] *)
Definition mark_enqueued (u : string) (s : Crawler_state) : Crawler_state * bool :=
  if bool_decide (u ∈ visited s) || bool_decide (u ∈ enqueued s) || stop_event s then (s, false)
  else (mkCrawlerState (visited s) ({[u]} ∪ enqueued s) (pages_crawled s) (stop_event s), true).

(** [_mark_visited(url)] *)
Definition mark_visited (u : string) (s : Crawler_state) : Crawler_state :=
  mkCrawlerState ({[u]} ∪ visited s) (enqueued s) (pages_crawled s) (stop_event s).

(** [_increment_pages()] with [self.max_pages = max_pages] *)
Definition increment_pages (max_pages : Z) (s : Crawler_state) : Crawler_state * option Z :=
  if Z.geb (pages_crawled s) max_pages then
    (mkCrawlerState (visited s) (enqueued s) (pages_crawled s) true, None)
  else
    let p := (pages_crawled s + 1)%Z in
    (mkCrawlerState (visited s) (enqueued s) p (stop_event s || Z.geb p max_pages), Some p).

(** One frontier operation. *)
Inductive frontier_step (max_pages : Z) : Crawler_state -> Crawler_state -> Prop :=
  | step_mark_enqueued u s b s' : mark_enqueued u s = (s', b) -> frontier_step max_pages s s'
  | step_mark_visited u s : frontier_step max_pages s (mark_visited u s)
  | step_increment_pages s s' r : increment_pages max_pages s = (s', r) -> frontier_step max_pages s s'.

(* ===================================================================== *)
(** ** [Crawler.fetch] (crawler.py, lines 75-96) *)
(* ===================================================================== *)

(** What one [session.get] attempt yields: a response with its status and
    its decoded text ([None] when [resp.text()] raises), or a client error
    raised before a response (connection, timeout, too many redirects). *)
Inductive http_result :=
  | HttpResponse (status : Z) (text : option string)
  | ClientError (msg : string).

Inductive fetch_exn :=
  | ClientResponseError (status : Z)
  | ClientException (msg : string)
  | DecodeError
  | RuntimeError (msg : string).

Inductive fetch_result :=
  | Fetched (body : string)
  | Raised (e : fetch_exn).

(** Observable effects of [fetch]: an HTTP attempt with its number, or an
    [asyncio.sleep] of the given number of seconds. *)
Inductive fetch_event :=
  | Attempt (n : Z)
  | Sleep (seconds : R).

(** The body of the [try] block: [resp.raise_for_status()] raises when
    [resp.ok] is false, i.e. when the status is at least 400. *)
Definition attempt_outcome (r : http_result) : string + fetch_exn :=
  match r with
  | ClientError m => inr (ClientException m)
  | HttpResponse status text =>
      if Z.leb 400 status then inr (ClientResponseError status)
      else match text with Some t => inl t | None => inr DecodeError end
  end.

Section Fetch.

Variables (max_retries : Z) (retry_backoff : R) (url : string).
(** [get attempt]: what the server does on attempt number [attempt]. *)
Variable get : Z -> http_result.

(** [for attempt in range(attempt, self.max_retries + 1)] with [fuel]
    iterations left. *)
Fixpoint fetch_loop (fuel : nat) (attempt : Z) (last_error : option fetch_exn)
    : list fetch_event * fetch_result :=
  match fuel with
  | O =>
      ([], Raised (match last_error with
                   | Some e => e
                   | None => RuntimeError ("Failed to fetch " ++ url)
                   end))
  | S fuel' =>
      match attempt_outcome (get attempt) with
      | inl body => ([Attempt attempt], Fetched body)
      | inr ex =>
          let slept := if Z.ltb attempt max_retries
                       then [Sleep (retry_backoff * IZR attempt)%R] else [] in
          let (tr, res) := fetch_loop fuel' (attempt + 1) (Some ex) in
          ((Attempt attempt :: slept ++ tr)%list, res)
      end
  end.

Definition fetch : list fetch_event * fetch_result :=
  fetch_loop (Z.to_nat max_retries) 1 None.

End Fetch.

(** [attempts_from a n = [a; a+1; ...; a+n-1]] *)
Fixpoint attempts_from (a : Z) (n : nat) : list Z :=
  match n with O => [] | S n' => a :: attempts_from (a + 1) n' end.

(** The events of a failed attempt [j]: the attempt, then a sleep of
    [retry_backoff * j] seconds unless [j] is the last allowed attempt. *)
Definition failed_attempt_events (max_retries : Z) (retry_backoff : R) (j : Z) : list fetch_event :=
  Attempt j :: (if Z.ltb j max_retries then [Sleep (retry_backoff * IZR j)%R] else []).

(** The events of failed attempts [1..k]. *)
Definition failed_attempts_trace (max_retries : Z) (retry_backoff : R) (k : Z) : list fetch_event :=
  flat_map (failed_attempt_events max_retries retry_backoff) (attempts_from 1 (Z.to_nat k)).

Definition is_2xx (status : Z) : bool := Z.leb 200 status && Z.ltb status 300.

(* ===================================================================== *)
(** ** [RobotsManager] rule cache (robots_manager.py, lines 37-139) *)
(* ===================================================================== *)

(** [self.rules] and the robots.txt requests issued so far, in order. *)
Record RobotsManager_state := mkRobotsManagerState {
  rules : gmap string RobotsRules;
  robots_requests : list string;
}.

(** [RobotsManager.__init__] *)
Definition robots_manager_init : RobotsManager_state := mkRobotsManagerState ∅ [].

Section RobotsManager.

Variable user_agent : string.
Variable py_float : string -> option R.
(** [urlparse(url).scheme] and [urlparse(url).netloc] *)
Variables (urlparse_scheme urlparse_netloc : string -> string).
(** [respond n robots_url]: the outcome of the [n]-th robots.txt request. *)
Variable respond : nat -> string -> http_result.

(** [_domain_key(url)] *)
Definition domain_key (u : string) : string := urlparse_scheme u ++ "://" ++ urlparse_netloc u.

(** The rules [ensure_rules] stores after a request: the parsed document on
    a 200 whose text decodes, [RobotsRules()] otherwise (other status, or an
    exception caught by [except Exception]). *)
Definition rules_of_response (resp : http_result) : RobotsRules :=
  match resp with
  | HttpResponse status (Some text) =>
      if Z.eqb status 200 then parse_robots py_float user_agent text else empty_rules
  | _ => empty_rules
  end.

(** [ensure_rules(session, url)]: the per-origin lock makes the
    check-request-store sequence atomic for an origin, so a call is one step. *)
Definition ensure_rules (u : string) (st : RobotsManager_state)
    : RobotsManager_state * RobotsRules :=
  let domain := domain_key u in
  match rules st !! domain with
  | Some r => (st, r)
  | None =>
      let robots_url := domain ++ "/robots.txt" in
      let r := rules_of_response (respond (List.length (robots_requests st)) robots_url) in
      (mkRobotsManagerState (<[domain := r]> (rules st))
         (robots_requests st ++ [robots_url])%list, r)
  end.

(** Successive [ensure_rules] calls. *)
Fixpoint ensure_rules_run (urls : list string) (st : RobotsManager_state) : RobotsManager_state :=
  match urls with
  | [] => st
  | u :: urls' => ensure_rules_run urls' (ensure_rules u st).1
  end.

End RobotsManager.

(* ===================================================================== *)
(** ** [Crawler.normalize_url] (crawler.py, lines 58-66) *)
(* ===================================================================== *)

Section Normalize.

(** The rest of [urllib.parse.urljoin] once [base] and [url] are non-empty,
    and [urlparse(full)._replace(fragment="").geturl()]. *)
Variables (urljoin_resolve : string -> string -> string) (drop_fragment : string -> string).

(** [urljoin(base, url)]: [if not base: return url; if not url: return base; ...] *)
Definition urljoin (base u : string) : string :=
  if negb (Py.truthy base) then u
  else if negb (Py.truthy u) then base
  else urljoin_resolve base u.

Definition normalize_url (base : string) (link : option string) : option string :=
  match link with
  | None => None
  | Some l =>
      if negb (Py.truthy l) then None
      else
        let l' := Py.strip l in
        if Py.startswith l' "mailto:" || Py.startswith l' "tel:" || Py.startswith l' "javascript:"
        then None
        else Some (drop_fragment (urljoin base l'))
  end.

End Normalize.

(** A string made of whitespace characters only (possibly empty). *)
Definition blank (s : string) : bool := forallb Py.isspace (list_ascii_of_string s).

(** Every robots.txt request recorded so far is distinct and names an
    origin whose decision is stored. *)
Definition requests_ok (st : RobotsManager_state) : Prop :=
  NoDup (robots_requests st)
  /\ forall x, In x (robots_requests st) ->
       exists d, x = d ++ "/robots.txt" /\ rules st !! d <> None.

(* ===================================================================== *)
(** ** Text helpers of [parse_html] (parser_cleaner.py) *)
(* ===================================================================== *)

Module PyText.

(** [c.isalnum()] for code points 0..255. *)
Definition isalnum (c : ascii) : bool :=
  let n := nat_of_ascii c in
  ((48 <=? n) && (n <=? 57))%nat || ((65 <=? n) && (n <=? 90))%nat
  || ((97 <=? n) && (n <=? 122))%nat
  || (n =? 170)%nat || (n =? 178)%nat || (n =? 179)%nat || (n =? 181)%nat
  || (n =? 185)%nat || (n =? 186)%nat || ((188 <=? n) && (n <=? 190))%nat
  || ((192 <=? n) && negb (n =? 215) && negb (n =? 247))%nat.

(** [needle in s] for strings. *)
Fixpoint str_in (needle s : string) : bool :=
  Py.startswith s needle
  || match s with EmptyString => false | String _ s' => str_in needle s' end.

Fixpoint split_aux (s cur : string) : list string :=
  match s with
  | EmptyString => if Py.truthy cur then [cur] else []
  | String c rest =>
      if Py.isspace c then
        (if Py.truthy cur then cur :: split_aux rest "" else split_aux rest "")
      else split_aux rest (Py.snoc cur c)
  end.

(** [s.split()]: the maximal runs of non-whitespace characters. *)
Definition split (s : string) : list string := split_aux s "".

(** [sep.join(l)] *)
Fixpoint join (sep : string) (l : list string) : string :=
  match l with
  | [] => ""
  | [x] => x
  | x :: l' => x ++ sep ++ join sep l'
  end.

(** [s[:n]] for [n >= 0]. *)
Definition prefix (n : nat) (s : string) : string := substring 0 n s.

End PyText.

(* ===================================================================== *)
(** ** [parse_html] (parser_cleaner.py, lines 7-185) *)
(* ===================================================================== *)

Definition code_keywords : list string :=
  ["function "; "var "; "let "; "const "; "=>"; "if("; "for("; "while("; "return ";
   "{"; "}"; ";"; "/*"; "*/"; ".class"; "background:"; "color:"; "margin:"; "padding:"].

(** [_looks_like_code_or_css(line)]. The test [special / len(line) > 0.35]
    is exact over the integers: for [len(line) <= 400] two distinct ratios
    differ by far more than the rounding of a double, and the double
    nearest [7/20] is the literal [0.35], so the float test holds exactly
    when [20 * special > 7 * len(line)]. *)
Definition looks_like_code_or_css (line : string) : bool :=
  if negb (Py.truthy line) then false
  else if (400 <? String.length line)%nat then true
  else
    let special :=
      List.length (List.filter (fun c => negb (PyText.isalnum c) && negb (Py.isspace c))
                     (list_ascii_of_string line)) in
    if (80 <? String.length line)%nat && (7 * String.length line <? 20 * special)%nat then true
    else
      let hits := List.length (List.filter (fun kw => PyText.str_in kw line) code_keywords) in
      (3 <=? hits)%nat.

(** What [parse_html] reads through BeautifulSoup and readability (these
    library calls are not embedded):
    - [title_string]: [soup.title.string], [None] without a [<title>] or
      when it has no single string;
    - [meta_content attr v]: the [content] attribute of the first
      [<meta attr=v>], [""] when there is no such tag or no attribute;
    - [html_lang]: [html_tag.get("lang", "")], [""] without an [<html>] tag;
    - [canonical_href]: the [href] of the first canonical [<link>], [""]
      when there is none;
    - [main_text]: [main_soup.get_text(separator="\n")] once scripts,
      styles, links, navigation and footers are removed;
    - [h1_texts], [h2_texts], [h3_texts]: the stripped heading texts. *)
Record html_view := mkHtmlView {
  title_string : option string;
  meta_content : string -> string -> string;
  html_lang : string;
  canonical_href : string;
  main_text : string;
  h1_texts : list string;
  h2_texts : list string;
  h3_texts : list string;
}.

(** The dict returned by [parse_html]. *)
Record parsed_doc := mkParsedDoc {
  pd_url : string;
  pd_canonical_url : string;
  pd_title : string;
  pd_content : string;
  pd_content_length : Z;
  pd_summary : string;
  pd_h1 : string;
  pd_headings_h1 : list string;
  pd_headings_h2 : list string;
  pd_headings_h3 : list string;
  pd_meta_description : string;
  pd_meta_keywords : string;
  pd_lang : string;
  pd_crawled_at : string;
}.

(** The loop of [_extract_meta_tag] over one attribute: the stripped
    content of the first tag whose [content] is non-empty. *)
Fixpoint first_meta (meta : string -> string -> string) (attr : string) (vals : list string)
    : option string :=
  match vals with
  | [] => None
  | v :: vs => if Py.truthy (meta attr v) then Some (Py.strip (meta attr v)) else first_meta meta attr vs
  end.

(** [_extract_meta_tag(soup, names, props)] *)
Definition extract_meta_tag (meta : string -> string -> string) (names props : list string) : string :=
  match first_meta meta "name" names with
  | Some s => s
  | None => default "" (first_meta meta "property" props)
  end.

(** [raw_lines]: the stripped non-blank lines of the main text. *)
Definition raw_lines (text : string) : list string :=
  map Py.strip (List.filter (fun l => Py.truthy (Py.strip l)) (Py.splitlines text)).

(** [" ".join(s.split())] *)
Definition collapse_ws (s : string) : string := PyText.join " " (PyText.split s).

(** A word [str.split()] can produce: non-empty, without whitespace. *)
Definition word_ok (w : string) : bool :=
  Py.truthy w && forallb (fun c => negb (Py.isspace c)) (list_ascii_of_string w).

(** The [content] field: lines that look like code dropped, the rest
    joined with spaces and whitespace runs collapsed. *)
Definition parse_content (text : string) : string :=
  collapse_ws (PyText.join " " (List.filter (fun ln => negb (looks_like_code_or_css ln)) (raw_lines text))).

(** [parse_html(url, html)], with [now_iso] the value of
    [datetime.now(timezone.utc).isoformat()]. *)
Definition parse_html (now_iso : string) (url_ : string) (v : html_view) : parsed_doc :=
  let og_title := Py.strip (meta_content v "property" "og:title") in
  let title_ :=
    match title_string v with
    | Some t => if Py.truthy t then Py.strip t else og_title
    | None => og_title
    end in
  let meta_desc :=
    extract_meta_tag (meta_content v) ["description"] ["og:description"; "twitter:description"] in
  let meta_keywords := extract_meta_tag (meta_content v) ["keywords"] [] in
  let lang := Py.strip (html_lang v) in
  let canonical_url := Py.strip (canonical_href v) in
  let content_ := parse_content (main_text v) in
  let content_length := Z.of_nat (String.length content_) in
  let primary_h1 := match h1_texts v with h :: _ => h | [] => "" end in
  let meta_desc' :=
    if negb (Py.truthy meta_desc) && Py.truthy content_ then PyText.prefix 160 content_ else meta_desc in
  let summary_ := if Py.truthy content_ then PyText.prefix 250 content_ else "" in
  mkParsedDoc url_ (if Py.truthy canonical_url then canonical_url else url_) title_ content_
    content_length summary_ primary_h1 (h1_texts v) (h2_texts v) (h3_texts v)
    meta_desc' meta_keywords lang now_iso.

(* ===================================================================== *)
(** ** [Indexer] (indexer.py) and [run_crawler_once.main] *)
(* ===================================================================== *)

(** A key of a Python dict: absent, present with [None], or present with a value. *)
Inductive pyfield (A : Type) :=
  | Missing
  | Null
  | Val (a : A).

Arguments Missing {A}.
Arguments Null {A}.
Arguments Val {A} a.

(** The click fields of a document dict. *)
Record click_fields := mkClickFields {
  f_clicks_total : pyfield Z;
  f_recent_clicks : pyfield R;
  f_ranking_score : pyfield R;
  f_last_clicked_at : pyfield string;
  f_last_clicked_at_ms : pyfield Z;
}.

(** The click fields of a dict returned by [parse_html]: none of them. *)
Definition fresh_click_fields : click_fields := mkClickFields Missing Missing Missing Missing Missing.

(** [doc.setdefault(key, d)] *)
Definition setdefault_field {A : Type} (f d : pyfield A) : pyfield A :=
  match f with Missing => d | _ => f end.

(** [doc.get(key)] *)
Definition field_get {A : Type} (f : pyfield A) : option A :=
  match f with Val a => Some a | _ => None end.

(** [doc.get("ranking_score") in (None, 0.0)] *)
Definition score_unset (f : pyfield R) : bool :=
  match f with Val r => if Req_dec_T r 0 then true else false | _ => true end.

(** [Indexer._with_click_defaults(doc)] with [current_time_ms() = clock_ms];
    [None] when [compute_ranking_score] raises ([None + 1], [None * 0.7] or
    [math.log] of a non-positive number). *)
Definition with_click_defaults (clock_ms : Z) (d : click_fields) : option click_fields :=
  let ct := setdefault_field (f_clicks_total d) (Val 0%Z) in
  let rc := setdefault_field (f_recent_clicks d) (Val 0%R) in
  let rs := setdefault_field (f_ranking_score d) (Val 0%R) in
  let la := setdefault_field (f_last_clicked_at d) Null in
  let lm := setdefault_field (f_last_clicked_at_ms d) Null in
  if score_unset rs then
    let now_ms := clock_ms in
    match ct, rc with
    | Val c, Val r =>
        match compute_ranking_score clock_ms c r (field_get lm) (Some now_ms) RANKING_DECAY_PER_HOUR with
        | Some s => Some (mkClickFields ct rc (Val s) la lm)
        | None => None
        end
    | _, _ => None
    end
  else Some (mkClickFields ct rc rs la lm).

(** The stored document for a prepared dict, on the fields of [page_doc]. *)
Definition to_page_doc (d : parsed_doc) (cf : click_fields) : page_doc :=
  mkPageDoc (pd_url d) (pd_title d) (pd_summary d) (pd_content d)
    (field_get (f_clicks_total cf)) (field_get (f_recent_clicks cf))
    (field_get (f_last_clicked_at_ms cf)) (field_get (f_last_clicked_at cf))
    (field_get (f_ranking_score cf)).



(* ===================================================================== *)
(** ** [search] result mapping (search_api.py, lines 144-170) *)
(* ===================================================================== *)

(** The fields of [SearchResult] taken from the stored document. *)
Record SearchResult := mkSearchResult {
  sr_url : string;
  sr_title : string;
  sr_snippet : string;
  sr_ranking_score : option R;
}.

(** One hit: [highlight] is [hit.get("highlight", {}).get("content", [])]. *)
Definition search_result_of_hit (highlight : list string) (src : page_doc) : SearchResult :=
  let snippet :=
    match highlight with
    | h :: _ => h
    | [] => if Py.truthy (summary src) then summary src else PyText.prefix 200 (content src)
    end in
  mkSearchResult (url src) (if Py.truthy (title src) then title src else url src) snippet
    (ranking_score src).

(* ===================================================================== *)
(** ** [RobotsManager.is_allowed] and [wait_for_crawl_delay]
       (robots_manager.py, lines 49-54 and 141-165) *)
(* ===================================================================== *)

Section RobotsQueries.

Variables (urlparse_scheme urlparse_netloc urlparse_path urlparse_query : string -> string).

(** [_path(url)] *)
Definition robots_path (u : string) : string :=
  let p := if Py.truthy (urlparse_path u) then urlparse_path u else "/" in
  if Py.truthy (urlparse_query u) then p ++ "?" ++ urlparse_query u else p.

(** [RobotsManager.is_allowed(url)] *)
Definition RobotsManager_is_allowed (st : RobotsManager_state) (u : string) : bool :=
  let domain := domain_key urlparse_scheme urlparse_netloc u in
  let r := default empty_rules (rules st !! domain) in
  is_allowed r (robots_path u).

(** [rules.crawl_delay or 0] *)
Definition crawl_delay_or_zero (r : RobotsRules) : R :=
  match crawl_delay r with Some d => d | None => 0%R end.

(** [wait_for_crawl_delay(url)] on [self.next_allowed]: [now1] is the
    first [time.monotonic()], [now2] the one read after the sleep; the
    result is the new [next_allowed] and the sleeps made (at most one). *)
Definition wait_for_crawl_delay (st : RobotsManager_state) (next_allowed : gmap string R)
    (u : string) (now1 now2 : R) : gmap string R * list R :=
  let domain := domain_key urlparse_scheme urlparse_netloc u in
  let r := default empty_rules (rules st !! domain) in
  let delay := crawl_delay_or_zero r in
  if Rle_dec delay 0 then (next_allowed, [])
  else
    let next_allowed_time := default now1 (next_allowed !! domain) in
    let wait_time := Rmax 0 (next_allowed_time - now1) in
    let sleeps := if Rlt_dec 0 wait_time then [wait_time] else [] in
    (<[domain := (now2 + delay)%R]> next_allowed, sleeps).

End RobotsQueries.

(* ===================================================================== *)
(** ** [same_domain], [extract_links] and the crawl loop (crawler.py) *)
(* ===================================================================== *)

Section Links.

Variables (urljoin_resolve : string -> string -> string) (drop_fragment : string -> string)
  (urlparse_netloc : string -> string).

(** [same_domain(base_url, new_url)] *)
Definition same_domain (same_domain_only : bool) (base_url new_url : string) : bool :=
  if negb same_domain_only then true
  else String.eqb (urlparse_netloc base_url) (urlparse_netloc new_url).

(** [extract_links(html, base_url)] where [hrefs] are the [href]s of the
    [<a>] tags of [html] in document order. *)
Fixpoint extract_links (same_domain_only : bool) (hrefs : list string) (base_url : string)
    : list string :=
  match hrefs with
  | [] => []
  | h :: hs =>
      match normalize_url urljoin_resolve drop_fragment base_url (Some h) with
      | Some n =>
          if Py.truthy n && same_domain same_domain_only base_url n
          then n :: extract_links same_domain_only hs base_url
          else extract_links same_domain_only hs base_url
      | None => extract_links same_domain_only hs base_url
      end
  end.

End Links.

(** [config.SEED_URLS] *)
Definition SEED_URLS : list string := ["https://www.adda247.com/"].

(** The state of one crawl: the frontier fields, the robots cache, the
    work queue and the [results] queue (what [crawl] yields, in order). *)
Record crawl_world := mkCrawlWorld {
  cw_crawler : Crawler_state;
  cw_robots : RobotsManager_state;
  cw_queue : list string;
  cw_results : list (string * string);
}.

(** [for link in links: if await self._mark_enqueued(link): await queue.put(link)]:
    the new state and the URLs put on the queue. *)
Fixpoint enqueue_all (links : list string) (s : Crawler_state) : Crawler_state * list string :=
  match links with
  | [] => (s, [])
  | l :: ls =>
      let (s1, b) := mark_enqueued l s in
      let (s2, q) := enqueue_all ls s1 in
      (s2, if b then l :: q else q)
  end.

(** The effective seed list of [Crawler.__init__]. *)
Definition effective_seeds (seed_urls : list string) : list string :=
  match seed_urls with [] => SEED_URLS | _ => seed_urls end.

Section Crawl.

Variable py_float : string -> option R.
Variables (urlparse_scheme urlparse_netloc urlparse_path urlparse_query : string -> string).
Variables (urljoin_resolve : string -> string -> string) (drop_fragment : string -> string).
(** [respond n robots_url]: the [n]-th robots.txt request; [get url attempt]:
    the page requests; [hrefs_of html]: the links of a page. *)
Variable respond : nat -> string -> http_result.
Variable get : string -> Z -> http_result.
Variable hrefs_of : string -> list string.
Variables (max_pages max_retries : Z) (retry_backoff : R) (same_domain_only : bool).

(** One iteration of [worker]'s loop for the URL at the head of the queue.
    [wait_for_crawl_delay] only sleeps and updates [next_allowed], which no
    other step reads, and is left out. [None] when the queue is empty. *)
Definition worker_step (w : crawl_world) : option crawl_world :=
  match cw_queue w with
  | [] => None
  | u :: q =>
      let s := cw_crawler w in
      if stop_event s then Some (mkCrawlWorld s (cw_robots w) q (cw_results w))
      else
        let rm := (ensure_rules USER_AGENT py_float urlparse_scheme urlparse_netloc respond u
                     (cw_robots w)).1 in
        if negb (RobotsManager_is_allowed urlparse_scheme urlparse_netloc urlparse_path urlparse_query rm u)
        then Some (mkCrawlWorld (mark_visited u s) rm q (cw_results w))
        else
          match (fetch max_retries retry_backoff u (get u)).2 with
          | Raised _ => Some (mkCrawlWorld s rm q (cw_results w))
          | Fetched html =>
              let (s1, page_number) := increment_pages max_pages s in
              match page_number with
              | None => Some (mkCrawlWorld s1 rm q (cw_results w))
              | Some _ =>
                  let s2 := mark_visited u s1 in
                  let results := (cw_results w ++ [(u, html)])%list in
                  if stop_event s2 then Some (mkCrawlWorld s2 rm q results)
                  else
                    let (s3, fresh) :=
                      enqueue_all (extract_links urljoin_resolve drop_fragment urlparse_netloc
                                     same_domain_only (hrefs_of html) u) s2 in
                    Some (mkCrawlWorld s3 rm (q ++ fresh)%list results)
              end
          end
  end.

(** The start of [crawl()]: [self.seed_urls = seed_urls or SEED_URLS] and
    the seeding loop, from a fresh crawler and robots manager. *)
Definition crawl_init (seed_urls : list string) : crawl_world :=
  let (s, q) := enqueue_all (effective_seeds seed_urls) (mkCrawlerState ∅ ∅ 0 false) in
  mkCrawlWorld s robots_manager_init q [].

(** [fuel] iterations of one worker, stopping when the queue is empty. *)
Fixpoint crawl_run (fuel : nat) (w : crawl_world) : crawl_world :=
  match fuel with
  | O => w
  | S fuel' => match worker_step w with None => w | Some w' => crawl_run fuel' w' end
  end.

End Crawl.

Section CrawlInv.

Variable py_float : string -> option R.
Variables (urlparse_scheme urlparse_netloc urlparse_path urlparse_query : string -> string).
Variables (urljoin_resolve : string -> string -> string) (drop_fragment : string -> string).
Variable respond : nat -> string -> http_result.
Variable get : string -> Z -> http_result.
Variable hrefs_of : string -> list string.
Variables (max_pages max_retries : Z) (retry_backoff : R) (same_domain_only : bool).

(** The invariant of a crawl started from [seed_urls]. *)
Definition crawl_inv (seed_urls : list string) (w : crawl_world) : Prop :=
  NoDup (cw_queue w ++ map fst (cw_results w))
  /\ (forall x, In x (cw_queue w ++ map fst (cw_results w)) -> x ∈ enqueued (cw_crawler w))
  /\ List.length (cw_results w) = Z.to_nat (pages_crawled (cw_crawler w))
  /\ (0 <= pages_crawled (cw_crawler w) <= max_pages)%Z
  /\ (forall u h, In (u, h) (cw_results w) ->
        (exists r, rules (cw_robots w) !! domain_key urlparse_scheme urlparse_netloc u = Some r
                   /\ is_allowed r (robots_path urlparse_path urlparse_query u) = true)
        /\ (exists tr, fetch max_retries retry_backoff u (get u) = (tr, Fetched h)))
  /\ (same_domain_only = true ->
      forall x, In x (cw_queue w ++ map fst (cw_results w)) ->
      exists s, In s (effective_seeds seed_urls) /\ urlparse_netloc x = urlparse_netloc s).

End CrawlInv.

(** Sample inputs on which the properties below are exercised: a small
    page, a page whose description meta tag is blank, a robots manager
    that disallows everything on one origin, one that asks for a two second
    crawl delay, and a document with recent clicks. *)

Definition sample_view : html_view :=
  mkHtmlView (Some "T") (fun _ _ => "") "en" "" "Hello world" [] [] [].

Definition blank_description_view : html_view :=
  mkHtmlView (Some "T") (fun _ v => if String.eqb v "description" then "  " else "")
    "en" "" "Hello world" [] [] [].

Definition disallow_all_manager : RobotsManager_state :=
  mkRobotsManagerState {["https://a" := mkRobotsRules [] ["/"] None]} [].

Definition delayed_manager : RobotsManager_state :=
  mkRobotsManagerState {["https://a" := mkRobotsRules [] [] (Some 2%R)]} [].

Definition clicked_page : page_doc :=
  mkPageDoc "u" "T" "" "" (Some 3%Z) (Some 10%R) (Some 0%Z) None None.

(* ##################################################################### *)
(** * Properties *)
(* ##################################################################### *)

(* ===================================================================== *)
(** ** Lemmas on the robots rules *)
(* ===================================================================== *)

Section RobotsLemmas.

Lemma fold_cond_max_filter (q : string -> bool) (l : list string) (a : Z) :
  fold_left (cond_max q) l a
  = fold_left Z.max (map (fun r => Z.of_nat (String.length r)) (List.filter q l)) a.
Proof.
  revert a; induction l as [|x l IH]; intros a; simpl; [reflexivity|].
  unfold cond_max at 2; destruct (q x); simpl; apply IH.
Qed.

Lemma fold_cond_max_prefilter (t q : string -> bool) (l : list string) (a : Z) :
  fold_left (cond_max q) (List.filter t l) a = fold_left (cond_max (fun r => t r && q r)) l a.
Proof.
  revert a; induction l as [|x l IH]; intros a; simpl; [reflexivity|].
  destruct (t x) eqn:Ht; simpl; rewrite IH; f_equal;
    unfold cond_max; cbn beta; rewrite Ht; reflexivity.
Qed.

Lemma longest_prefix_length_fold (p : string) (l : list string) :
  longest_prefix_length p l
  = fold_left (cond_max (fun r => Py.truthy r && Py.startswith p r)) l (-1)%Z.
Proof.
  unfold longest_prefix_length. rewrite fold_cond_max_filter.
  destruct (List.filter _ l) as [|r rs]; simpl; [reflexivity|].
  rewrite (Z.max_r (-1)); [reflexivity | lia].
Qed.

Lemma spec_longest_prefix_nonempty (p : string) (l : list string) :
  spec_longest_prefix p (nonempty_patterns l) = longest_prefix_length p l.
Proof.
  rewrite longest_prefix_length_fold.
  unfold spec_longest_prefix, nonempty_patterns.
  change (fun acc r => if Py.startswith p r then Z.max acc (Z.of_nat (String.length r)) else acc)
    with (cond_max (Py.startswith p)).
  apply fold_cond_max_prefilter.
Qed.

Lemma filter_truthy_idem (l : list string) :
  nonempty_patterns (nonempty_patterns l) = nonempty_patterns l.
Proof.
  unfold nonempty_patterns; induction l as [|x l IH]; simpl; [reflexivity|].
  destruct (Py.truthy x) eqn:E; simpl; [rewrite E, IH|]; auto.
Qed.

Lemma longest_prefix_length_drop_empty (p : string) (l : list string) :
  longest_prefix_length p (nonempty_patterns l) = longest_prefix_length p l.
Proof.
  rewrite <- !spec_longest_prefix_nonempty, filter_truthy_idem. reflexivity.
Qed.

Lemma empty_rules_ok : rules_ok empty_rules.
Proof. split; constructor. Qed.

Lemma setdefault_ok (m : agent_map) (k : string) : map_ok m -> map_ok (setdefault m k).
Proof.
  unfold map_ok; induction m as [|[k' v] m IH]; simpl; intros H.
  - constructor; [apply empty_rules_ok | constructor].
  - inversion H; subst. destruct (String.eqb k' k); [assumption|].
    constructor; auto.
Qed.

Lemma alter_agent_ok (f : RobotsRules -> RobotsRules) (k : string) (m : agent_map) :
  (forall r, rules_ok r -> rules_ok (f r)) -> map_ok m -> map_ok (alter_agent f k m).
Proof.
  intros Hf; unfold map_ok; induction m as [|[k' v] m IH]; simpl; intros H; [constructor|].
  inversion H; subst. destruct (String.eqb k' k); constructor; simpl; auto.
Qed.

Lemma add_pattern_ok (b : bool) (value : string) (r : RobotsRules) :
  rules_ok r -> rules_ok (add_pattern b value r).
Proof.
  intros [Ha Hd]; unfold add_pattern.
  destruct (Py.truthy value) eqn:Ev; [|split; assumption].
  destruct b; split; simpl; try assumption; apply Forall_app; split; auto.
Qed.

Lemma set_crawl_delay_ok (d : R) (r : RobotsRules) : rules_ok r -> rules_ok (set_crawl_delay d r).
Proof. intros [Ha Hd]; split; assumption. Qed.

Lemma fold_agents_ok (f : RobotsRules -> RobotsRules) (agents : list string) (m : agent_map) :
  (forall r, rules_ok r -> rules_ok (f r)) -> map_ok m ->
  map_ok (fold_left (fun m agent => alter_agent f agent (setdefault m agent)) agents m).
Proof.
  intros Hf; revert m; induction agents as [|a agents IH]; intros m Hm; simpl; [assumption|].
  apply IH, alter_agent_ok, setdefault_ok; assumption.
Qed.

Lemma parse_line_ok (py_float : string -> option R) (st : parse_state) (raw : string) :
  map_ok (rules_map st) -> map_ok (rules_map (parse_line py_float st raw)).
Proof.
  intros H; unfold parse_line.
  destruct (_ || _); [assumption|].
  destruct (Py.split1 ":" _) as [k v].
  destruct (String.eqb _ "user-agent"); [apply setdefault_ok; assumption|].
  destruct (_ || _).
  { destruct (current_agents st); [assumption|].
    apply fold_agents_ok; [apply add_pattern_ok | assumption]. }
  destruct (String.eqb _ "crawl-delay"); [|assumption].
  destruct (current_agents st); [assumption|].
  destruct (py_float _); [|assumption].
  apply fold_agents_ok; [apply set_crawl_delay_ok | assumption].
Qed.

Lemma parse_lines_ok (py_float : string -> option R) (lines : list string) (st : parse_state) :
  map_ok (rules_map st) -> map_ok (rules_map (fold_left (parse_line py_float) lines st)).
Proof.
  revert st; induction lines as [|l lines IH]; intros st H; simpl; [assumption|].
  apply IH, parse_line_ok, H.
Qed.

Lemma select_agent_ok (u : string) (m : agent_map) (r : RobotsRules) :
  map_ok m -> select_agent u m = Some r -> rules_ok r.
Proof.
  unfold map_ok; induction m as [|[k v] m IH]; simpl; intros H E; [discriminate|].
  inversion H; subst. destruct (String.eqb _ u); [injection E as <-; assumption|].
  apply IH; assumption.
Qed.

Lemma assoc_get_ok (u : string) (m : agent_map) (r : RobotsRules) :
  map_ok m -> assoc_get u m = Some r -> rules_ok r.
Proof.
  unfold map_ok; induction m as [|[k v] m IH]; simpl; intros H E; [discriminate|].
  inversion H; subst. destruct (String.eqb k u); [injection E as <-; assumption|].
  apply IH; assumption.
Qed.

Lemma parse_robots_ok (py_float : string -> option R) (ua content : string) :
  rules_ok (parse_robots py_float ua content).
Proof.
  unfold parse_robots.
  assert (Hm : map_ok (rules_map (fold_left (parse_line py_float) (Py.splitlines content) parse_init)))
    by (apply parse_lines_ok; constructor).
  destruct (select_agent _ _) eqn:E1; [eapply select_agent_ok; eassumption|].
  destruct (assoc_get _ _) eqn:E2; [eapply assoc_get_ok; eassumption|].
  apply empty_rules_ok.
Qed.

End RobotsLemmas.

Section RobotsClaims.

(** C1 (counterexample): with the single pattern [""] in [disallows], the
    rule as worded (every pattern that is a prefix of the path counts, and
    [""] is a prefix of every path) denies ["/x"], while [is_allowed]
    allows it, because [rule and ...] skips empty patterns. *)
Lemma is_allowed_empty_disallow_counterexample :
  spec_is_allowed [] [""] "/x" = false
  /\ is_allowed (mkRobotsRules [] [""] None) "/x" = true.
Proof. split; vm_compute; reflexivity. Qed.

(** C1 (amended): [is_allowed] is the longest-prefix rule of the
    specification evaluated over the non-empty patterns of [allows] and
    [disallows]; in particular [Allow: /a/b], [Disallow: /a] allow
    ["/a/b/c"], deny ["/a/x"] and allow ["/z"]. *)
Theorem is_allowed_longest_nonempty_prefix :
  (forall (r : RobotsRules) (p : string),
     is_allowed r p
     = spec_is_allowed (nonempty_patterns (allows r)) (nonempty_patterns (disallows r)) p)
  /\ is_allowed (mkRobotsRules ["/a/b"] ["/a"] None) "/a/b/c" = true
  /\ is_allowed (mkRobotsRules ["/a/b"] ["/a"] None) "/a/x" = false
  /\ is_allowed (mkRobotsRules ["/a/b"] ["/a"] None) "/z" = true.
Proof.
  split; [|split; [|split]]; try (vm_compute; reflexivity).
  intros r p. unfold is_allowed, spec_is_allowed.
  rewrite !spec_longest_prefix_nonempty. reflexivity.
Qed.

Lemma bare_disallow_rules_map (py_float : string -> option R) :
  rules_map (fold_left (parse_line py_float) (Py.splitlines bare_disallow_robots) parse_init)
  = [("*", empty_rules)].
Proof. vm_compute. reflexivity. Qed.

(** C10: removing the empty patterns of a rules object never changes
    [is_allowed]; the parser never stores an empty [Allow] or [Disallow]
    value; and a group [User-agent: *] with a bare [Disallow:] blocks no
    path, whatever the crawler's user agent. *)
Theorem empty_patterns_never_decide :
  (forall (r : RobotsRules) (p : string), is_allowed (drop_empty_patterns r) p = is_allowed r p)
  /\ (forall (py_float : string -> option R) (ua content : string),
        rules_ok (parse_robots py_float ua content))
  /\ (forall (py_float : string -> option R) (ua p : string),
        is_allowed (parse_robots py_float ua bare_disallow_robots) p = true).
Proof.
  split; [|split].
  - intros r p. unfold is_allowed, drop_empty_patterns; simpl.
    rewrite !longest_prefix_length_drop_empty. reflexivity.
  - apply parse_robots_ok.
  - intros py_float ua p. unfold parse_robots.
    rewrite bare_disallow_rules_map. simpl.
    match goal with |- context [if ?b then _ else _] => destruct b end; reflexivity.
Qed.

End RobotsClaims.

(* ===================================================================== *)
(** ** Ranking formula, click recorder and decay sweep *)
(* ===================================================================== *)

Section RankingLemmas.

Open Scope R_scope.

(** With a supplied non-zero [now_ms], the clock is never read. *)
Lemma now_or_clock_given (n clock_ms : Z) : n <> 0%Z -> now_or_clock (Some n) clock_ms = n.
Proof. intros H; simpl. apply Z.eqb_neq in H. rewrite H. reflexivity. Qed.

(** Away from the falsy value [0] of both timestamps, [compute_ranking_score]
    is the formula of section 4.9. *)
Lemma compute_ranking_score_nonzero (clock_ms c : Z) (r : R) (last n : Z) (d : R) :
  (0 <= c)%Z -> last <> 0%Z -> n <> 0%Z ->
  compute_ranking_score clock_ms c r (Some last) (Some n) d
  = Some (spec_ranking_formula c r (Some last) n d).
Proof.
  intros Hc Hl Hn. unfold compute_ranking_score, compute_decay_hours, spec_ranking_formula.
  rewrite !(now_or_clock_given n clock_ms Hn).
  apply Z.eqb_neq in Hl. rewrite Hl.
  destruct (Z.leb_spec (c + 1) 0); [lia|]. f_equal. ring.
Qed.

Lemma compute_ranking_score_absent (clock_ms c : Z) (r : R) (n : Z) (d : R) :
  (0 <= c)%Z -> n <> 0%Z ->
  compute_ranking_score clock_ms c r None (Some n) d = Some (spec_ranking_formula c r None n d).
Proof.
  intros Hc Hn. unfold compute_ranking_score, compute_decay_hours, spec_ranking_formula.
  destruct (Z.leb_spec (c + 1) 0); [lia|]. f_equal. ring.
Qed.

(** The score of the stub document written by the upsert of [track_click]. *)
Lemma first_click_score (clock_ms : Z) :
  compute_ranking_score clock_ms 1 1 (Some clock_ms) (Some clock_ms) RANKING_DECAY_PER_HOUR
  = Some (ln 2 + 7 / 10).
Proof.
  unfold compute_ranking_score, compute_decay_hours.
  assert (Hn : now_or_clock (Some clock_ms) clock_ms = clock_ms)
    by (simpl; destruct (Z.eqb clock_ms 0); reflexivity).
  rewrite Hn, Hn. simpl (Z.leb _ _); cbv iota.
  f_equal. rewrite Z.sub_diag. change (IZR (1 + 1)) with 2.
  destruct (Z.eqb clock_ms 0).
  - ring.
  - rewrite Rmax_left by (unfold Rdiv; rewrite Rmult_0_l; lra).
    unfold Rdiv; rewrite Rmult_0_l. ring.
Qed.

End RankingLemmas.

Section RankingClaims.

Open Scope R_scope.

(** C2 (code bug): with [last_clicked_at_ms = 0] (a real epoch timestamp)
    and [now_ms] one hour later, [compute_ranking_score] takes the falsy [0]
    for an absent timestamp and returns [0], whereas the formula of the
    claim gives [-0.05]. *)
Theorem compute_ranking_score_zero_timestamp (clock_ms : Z) :
  compute_ranking_score clock_ms 0 0 (Some 0%Z) (Some 3600000%Z) RANKING_DECAY_PER_HOUR = Some 0
  /\ spec_ranking_formula 0 0 (Some 0%Z) 3600000 RANKING_DECAY_PER_HOUR = - (5 / 100).
Proof.
  unfold compute_ranking_score, compute_decay_hours, spec_ranking_formula, RANKING_DECAY_PER_HOUR.
  simpl (Z.leb _ _); simpl (Z.eqb _ _); cbv iota. split.
  - f_equal. change (IZR (0 + 1)) with 1. rewrite ln_1. ring.
  - change (IZR (0 + 1)) with 1. rewrite ln_1.
    change (IZR (3600000 - 0)) with 3600000.
    rewrite Rmax_right by lra. field.
Qed.

(** C9 (counterexample): two calls with the same arguments and [now_ms]
    omitted read the clock: at clock 1 ms the score is [0], at clock
    3600001 ms it is [-1]. *)
Lemma compute_ranking_score_reads_clock :
  compute_ranking_score 1 0 0 (Some 1%Z) None 1 = Some 0
  /\ compute_ranking_score 3600001 0 0 (Some 1%Z) None 1 = Some (-1).
Proof.
  unfold compute_ranking_score, compute_decay_hours; simpl (now_or_clock _ _).
  simpl (Z.leb _ _); simpl (Z.eqb _ _); cbv iota.
  change (IZR (0 + 1)) with 1. rewrite ln_1. split; f_equal.
  - change (IZR (1 - 1)) with 0. rewrite Rmax_left by lra. field.
  - change (IZR (3600001 - 1)) with 3600000. rewrite Rmax_right by lra. field.
Qed.

(** C9 (amended): when [now_ms] is supplied as a non-zero timestamp,
    [compute_ranking_score] does not depend on the clock: equal arguments
    give equal results whatever [current_time_ms()] returns. *)
Theorem compute_ranking_score_deterministic (clock1 clock2 : Z) (c : Z) (r : R)
    (last : option Z) (n : Z) (d : R) :
  n <> 0%Z ->
  compute_ranking_score clock1 c r last (Some n) d = compute_ranking_score clock2 c r last (Some n) d.
Proof.
  intros Hn. unfold compute_ranking_score, compute_decay_hours.
  rewrite !(now_or_clock_given n _ Hn). reflexivity.
Qed.

Lemma compute_ranking_score_deterministic_witness :
  (1700000000000 <> 0)%Z
  /\ compute_ranking_score 5 3 2 (Some 1699999000000%Z) (Some 1700000000000%Z) RANKING_DECAY_PER_HOUR
     = compute_ranking_score 9 3 2 (Some 1699999000000%Z) (Some 1700000000000%Z) RANKING_DECAY_PER_HOUR.
Proof.
  split; [lia|]. apply (compute_ranking_score_deterministic 5 9 3 2 (Some 1699999000000%Z)
                          1700000000000 RANKING_DECAY_PER_HOUR). lia.
Defined.

End RankingClaims.

Section ClickClaims.

Open Scope R_scope.

(** The document stored by the first [track_click] on a URL absent from
    the pages index. *)
Lemma track_click_first (clock_ms : Z) (iso : string) (ev : ClickEvent) (st : es_state) :
  pages st !! event_url ev = None ->
  exists st1,
    track_click clock_ms iso ev st = Some (st1, ("tracked", event_url ev))
    /\ pages st1 !! event_url ev
       = Some (mkPageDoc (event_url ev) (event_url ev) "" "" (Some 1%Z) (Some 1)
                 (Some clock_ms) (Some iso) (Some (ln 2 + 7 / 10))).
Proof.
  intros Hnone. unfold track_click. rewrite first_click_score.
  eexists; split; [reflexivity|]. simpl. unfold es_update. rewrite Hnone.
  apply lookup_insert_eq.
Qed.

(** C3: from a pages index without [U], two [track_click] calls for [U] at
    the same instant store [clicks_total = 2], [recent_clicks = 2.0] and
    [ranking_score = ln 3 + 1.4]; after the first (upsert) call alone the
    stored score is [ln 2 + 0.7]. *)
Theorem track_click_twice_same_instant (st : es_state) (ev1 ev2 : ClickEvent)
    (clock_ms : Z) (iso1 iso2 : string) :
  pages st !! event_url ev1 = None ->
  event_url ev2 = event_url ev1 ->
  exists st1 st2 d1 d2,
    track_click clock_ms iso1 ev1 st = Some (st1, ("tracked", event_url ev1))
    /\ pages st1 !! event_url ev1 = Some d1
    /\ ranking_score d1 = Some (ln 2 + 7 / 10)
    /\ track_click clock_ms iso2 ev2 st1 = Some (st2, ("tracked", event_url ev1))
    /\ pages st2 !! event_url ev1 = Some d2
    /\ clicks_total d2 = Some 2%Z
    /\ recent_clicks d2 = Some 2
    /\ ranking_score d2 = Some (ln 3 + 14 / 10).
Proof.
  intros Hnone Hurl.
  destruct (track_click_first clock_ms iso1 ev1 st Hnone) as [st1 [E1 L1]].
  exists st1. unfold track_click at 2. rewrite first_click_score, Hurl.
  unfold es_update. rewrite L1.
  do 3 eexists. split; [exact E1|]. split; [reflexivity|]. split; [reflexivity|].
  split; [reflexivity|]. split; [apply lookup_insert_eq|].
  unfold click_update_script; simpl. split; [reflexivity|]. split; [f_equal; ring|].
  f_equal. rewrite Z.sub_diag. change (IZR (1 + 1)) with 2.
  replace (2 + 1) with 3 by ring. unfold Rdiv; rewrite Rmult_0_l. ring.
Qed.

Lemma track_click_twice_same_instant_witness :
  pages (mkEsState ∅ []) !! event_url (mkClickEvent "U" None None) = None
  /\ event_url (mkClickEvent "U" None None) = event_url (mkClickEvent "U" None None)
  /\ exists st1 st2 d1 d2,
    track_click 1700000000000 "t" (mkClickEvent "U" None None) (mkEsState ∅ [])
      = Some (st1, ("tracked", "U"))
    /\ pages st1 !! "U" = Some d1
    /\ ranking_score d1 = Some (ln 2 + 7 / 10)
    /\ track_click 1700000000000 "t" (mkClickEvent "U" None None) st1 = Some (st2, ("tracked", "U"))
    /\ pages st2 !! "U" = Some d2
    /\ clicks_total d2 = Some 2%Z
    /\ recent_clicks d2 = Some 2
    /\ ranking_score d2 = Some (ln 3 + 14 / 10).
Proof.
  split; [reflexivity|]. split; [reflexivity|].
  apply (track_click_twice_same_instant (mkEsState ∅ []) (mkClickEvent "U" None None)
           (mkClickEvent "U" None None) 1700000000000 "t" "t"); reflexivity.
Defined.

End ClickClaims.

Section DecayClaims.

Open Scope R_scope.

(** The sweep on the specification's scenario: [clicks_total = 5],
    [recent_clicks = 10], [last_clicked_at_ms = now] give [8.5] and
    [ln 6 + 5.95]; [recent_clicks = 0.005] is floored to [0]. *)
Lemma decay_script_examples (now_ms : Z) (u : string) (r0 : R) (c0 : Z) (l0 : option Z) :
  recent_clicks (decay_script now_ms RECENT_CLICK_DECAY_MULTIPLIER RANKING_DECAY_PER_HOUR
                   (mkPageDoc u u "" "" (Some 5%Z) (Some 10) (Some now_ms) None None))
  = Some (85 / 10)
  /\ ranking_score (decay_script now_ms RECENT_CLICK_DECAY_MULTIPLIER RANKING_DECAY_PER_HOUR
                      (mkPageDoc u u "" "" (Some 5%Z) (Some 10) (Some now_ms) None None))
     = Some (ln 6 + 595 / 100 - 0)
  /\ recent_clicks (decay_script now_ms RECENT_CLICK_DECAY_MULTIPLIER RANKING_DECAY_PER_HOUR
                      (mkPageDoc u u "" "" (Some c0) (Some (5 / 1000)) l0 None None))
     = Some 0.
Proof.
  unfold decay_script, RECENT_CLICK_DECAY_MULTIPLIER, RANKING_DECAY_PER_HOUR; simpl.
  destruct (Rlt_dec (10 * (85 / 100)) (1 / 100)) as [H|H]; [lra|].
  destruct (Rlt_dec (5 / 1000 * (85 / 100)) (1 / 100)) as [H'|H']; [|lra].
  split; [f_equal; field|]. split; [|reflexivity].
  f_equal. rewrite Z.sub_diag. change (IZR 5 + 1) with (5 + 1).
  replace (5 + 1) with 6 by ring. field.
Qed.

(** When the stored click is not later than the sweep's [now_ms], the
    sweep's score is the formula of section 4.9 at the decayed counter. *)
Lemma decay_script_formula (now_ms : Z) (m d : R) (doc : page_doc) (c l : Z) :
  clicks_total doc = Some c -> last_clicked_at_ms doc = Some l -> (l <= now_ms)%Z ->
  ranking_score (decay_script now_ms m d doc)
  = Some (spec_ranking_formula c (default 0 (recent_clicks (decay_script now_ms m d doc)))
            (Some l) now_ms d).
Proof.
  intros Hc Hl Hle. unfold decay_script, spec_ranking_formula. rewrite Hc, Hl. simpl.
  rewrite Rmax_right.
  - rewrite plus_IZR. f_equal. ring.
  - apply Rmult_le_pos; [apply IZR_le; lia | lra].
Qed.

(** C7 (code bug): a document whose [last_clicked_at_ms] is one hour after
    the sweep's [now_ms] (a click recorded while the sweep runs) gets the
    score [0.05] from [DECAY_SCRIPT], which has no [max(0, ...)] clamp,
    whereas the formula of section 4.9 gives [0]. *)
Theorem apply_decay_future_click :
  (pages (apply_decay 1700000000000
            (mkEsState {[ "U" := mkPageDoc "U" "U" "" "" (Some 0%Z) (Some 0)
                                    (Some 1700003600000%Z) None (Some 0) ]} []))
     !! "U") ≫= ranking_score
  = Some (5 / 100)
  /\ spec_ranking_formula 0 0 (Some 1700003600000%Z) 1700000000000 RANKING_DECAY_PER_HOUR = 0.
Proof.
  split.
  - unfold apply_decay; simpl. rewrite lookup_fmap, lookup_singleton_eq. simpl.
    unfold decay_script, RECENT_CLICK_DECAY_MULTIPLIER, RANKING_DECAY_PER_HOUR; simpl.
    destruct (Rlt_dec (0 * (85 / 100)) (1 / 100)) as [H|H]; [|lra].
    f_equal. change (IZR 0 + 1) with (0 + 1). rewrite Rplus_0_l, ln_1.
    change (IZR (1700000000000 - 1700003600000)) with (-3600000). field.
  - unfold spec_ranking_formula, RANKING_DECAY_PER_HOUR.
    change (IZR (0 + 1)) with 1. rewrite ln_1.
    change (IZR (1700000000000 - 1700003600000)) with (-3600000).
    rewrite Rmax_left by lra. ring.
Qed.

End DecayClaims.

(* ===================================================================== *)
(** ** Frontier *)
(* ===================================================================== *)

Section FrontierClaims.

Lemma mark_enqueued_counters (u : string) (s s' : Crawler_state) (b : bool) :
  mark_enqueued u s = (s', b) -> pages_crawled s' = pages_crawled s /\ stop_event s' = stop_event s.
Proof.
  unfold mark_enqueued. destruct (_ || _ || _); intros E; injection E as <- _; split; reflexivity.
Qed.

(** C4: [_increment_pages] stops and returns [None] without counting when
    [pages_crawled >= max_pages], and otherwise counts one page, sets the
    stop flag exactly when the new count equals [max_pages] (or keeps it
    set) and returns the new count; every frontier operation preserves
    [pages_crawled <= max_pages] (with [0 <= max_pages]) and never clears
    the stop flag. *)
Theorem frontier_page_cap_and_stop :
  (forall (max_pages : Z) (s : Crawler_state),
     ((max_pages <= pages_crawled s)%Z ->
        increment_pages max_pages s
        = (mkCrawlerState (visited s) (enqueued s) (pages_crawled s) true, None))
     /\ ((pages_crawled s < max_pages)%Z ->
        increment_pages max_pages s
        = (mkCrawlerState (visited s) (enqueued s) (pages_crawled s + 1)
             (stop_event s || Z.eqb (pages_crawled s + 1) max_pages),
           Some (pages_crawled s + 1)%Z)))
  /\ (forall (max_pages : Z) (s s' : Crawler_state),
        (pages_crawled s <= max_pages)%Z -> (0 <= max_pages)%Z ->
        frontier_step max_pages s s' -> (pages_crawled s' <= max_pages)%Z)
  /\ (forall (max_pages : Z) (s s' : Crawler_state),
        stop_event s = true -> frontier_step max_pages s s' -> stop_event s' = true).
Proof.
  split; [|split].
  - intros max_pages s; unfold increment_pages; split; intros H.
    + destruct (Z.geb_spec (pages_crawled s) max_pages); [reflexivity | lia].
    + destruct (Z.geb_spec (pages_crawled s) max_pages); [lia|].
      destruct (Z.geb_spec (pages_crawled s + 1) max_pages);
        destruct (Z.eqb_spec (pages_crawled s + 1) max_pages); try lia; reflexivity.
  - intros max_pages s s' Hinv Hmax Hstep; destruct Hstep as [u s0 b s1 E|u s0|s0 s1 r E].
    + destruct (mark_enqueued_counters _ _ _ _ E) as [-> _]; assumption.
    + exact Hinv.
    + unfold increment_pages in E.
      destruct (Z.geb_spec (pages_crawled s0) max_pages); injection E as <- _; simpl; lia.
  - intros max_pages s s' Hstop Hstep; destruct Hstep as [u s0 b s1 E|u s0|s0 s1 r E].
    + destruct (mark_enqueued_counters _ _ _ _ E) as [_ ->]; assumption.
    + exact Hstop.
    + unfold increment_pages in E.
      destruct (Z.geb _ _); injection E as <- _; simpl; [reflexivity|].
      rewrite Hstop; reflexivity.
Qed.

Lemma frontier_page_cap_and_stop_witness :
  (2 <= 3)%Z /\ (0 <= 3)%Z /\ true = true
  /\ (pages_crawled (increment_pages 3 (mkCrawlerState ∅ ∅ 2 true)).1 <= 3)%Z
  /\ stop_event (increment_pages 3 (mkCrawlerState ∅ ∅ 2 true)).1 = true.
Proof.
  destruct frontier_page_cap_and_stop as [_ [Hcap Hstop]].
  split; [lia|]. split; [lia|]. split; [reflexivity|]. split.
  - apply (Hcap 3%Z (mkCrawlerState ∅ ∅ 2 true)); [simpl; lia | lia |].
    eapply step_increment_pages; reflexivity.
  - apply (Hstop 3%Z (mkCrawlerState ∅ ∅ 2 true)); [reflexivity |].
    eapply step_increment_pages; reflexivity.
Defined.

End FrontierClaims.

(* ===================================================================== *)
(** ** Fetch with retries *)
(* ===================================================================== *)

Section FetchLemmas.

Variables (max_retries : Z) (retry_backoff : R) (url : string) (get : Z -> http_result).

Lemma fetch_loop_first_success (body : string) :
  forall (n fuel : nat) (a : Z) (le : option fetch_exn),
  (n < fuel)%nat ->
  (forall j, (a <= j < a + Z.of_nat n)%Z -> exists e, attempt_outcome (get j) = inr e) ->
  attempt_outcome (get (a + Z.of_nat n)%Z) = inl body ->
  fetch_loop max_retries retry_backoff url get fuel a le
  = (flat_map (failed_attempt_events max_retries retry_backoff) (attempts_from a n)
       ++ [Attempt (a + Z.of_nat n)], Fetched body)%list.
Proof.
  induction n as [|n IH]; intros fuel a le Hlt Hfail Hok;
    (destruct fuel as [|fuel]; [lia|]); cbn [fetch_loop].
  - rewrite Z.add_0_r in Hok |- *. rewrite Hok. reflexivity.
  - destruct (Hfail a) as [e He]; [lia|]. rewrite He.
    rewrite (IH fuel (a + 1)%Z (Some e)).
    + cbn [attempts_from flat_map]. unfold failed_attempt_events at 1.
      rewrite <- app_assoc.
      replace (a + 1 + Z.of_nat n)%Z with (a + Z.of_nat (S n))%Z by lia. reflexivity.
    + lia.
    + intros j Hj; apply Hfail; lia.
    + replace (a + 1 + Z.of_nat n)%Z with (a + Z.of_nat (S n))%Z by lia. exact Hok.
Qed.

Lemma fetch_loop_all_fail (err : Z -> fetch_exn) :
  forall (fuel : nat) (a : Z) (le : option fetch_exn),
  (0 < fuel)%nat ->
  (forall j, (a <= j < a + Z.of_nat fuel)%Z -> attempt_outcome (get j) = inr (err j)) ->
  fetch_loop max_retries retry_backoff url get fuel a le
  = (flat_map (failed_attempt_events max_retries retry_backoff) (attempts_from a fuel),
     Raised (err (a + Z.of_nat fuel - 1)%Z)).
Proof.
  induction fuel as [|fuel IH]; intros a le Hpos Hfail; [lia|].
  cbn [fetch_loop]. rewrite (Hfail a) by lia.
  destruct fuel as [|fuel'].
  - cbn. replace (a + Z.of_nat 1 - 1)%Z with a by lia. reflexivity.
  - rewrite (IH (a + 1)%Z (Some (err a))) by (lia || (intros j Hj; apply Hfail; lia)).
    cbn [attempts_from flat_map]. unfold failed_attempt_events at 1.
    rewrite app_comm_cons.
    replace (a + 1 + Z.of_nat (S fuel') - 1)%Z with (a + Z.of_nat (S (S fuel')) - 1)%Z by lia.
    reflexivity.
Qed.

End FetchLemmas.

Section FetchClaims.

(** C5 (counterexample): a [304] response is not 2xx, yet with
    [max_retries = 1] [fetch] returns its body after one attempt instead
    of raising: [raise_for_status] only rejects statuses of 400 and above. *)
Lemma fetch_304_counterexample :
  is_2xx 304 = false
  /\ fetch 1 1 "http://a/" (fun _ => HttpResponse 304 (Some "x")) = ([Attempt 1], Fetched "x").
Proof. split; reflexivity. Qed.

(** C5 (amended): an attempt fails on a client error, on a status of 400
    or more, or on an undecodable body; attempts are numbered from 1 and
    at most [max_retries] are made; the first successful attempt [k] ends
    the loop with its body, after the failed attempts [1..k-1] each
    followed by a sleep of [retry_backoff * j]; when all [max_retries >= 1]
    attempts fail, the last one sleeps no more and its error is raised;
    with [max_retries <= 0] nothing is attempted and [RuntimeError] is
    raised. In particular a 500 then a 200 with [max_retries >= 2] give
    exactly two attempts and one sleep of [retry_backoff * 1]. *)
Theorem fetch_retry_contract (max_retries : Z) (retry_backoff : R) (url : string)
    (get : Z -> http_result) :
  (forall (status : Z) (text : string),
     attempt_outcome (HttpResponse status (Some text))
     = if Z.leb 400 status then inr (ClientResponseError status) else inl text)
  /\ (forall (k : Z) (body : string),
        (1 <= k <= max_retries)%Z ->
        (forall j, (1 <= j < k)%Z -> exists e, attempt_outcome (get j) = inr e) ->
        attempt_outcome (get k) = inl body ->
        fetch max_retries retry_backoff url get
        = (failed_attempts_trace max_retries retry_backoff (k - 1) ++ [Attempt k], Fetched body)%list)
  /\ (forall err : Z -> fetch_exn,
        (1 <= max_retries)%Z ->
        (forall j, (1 <= j <= max_retries)%Z -> attempt_outcome (get j) = inr (err j)) ->
        fetch max_retries retry_backoff url get
        = (failed_attempts_trace max_retries retry_backoff max_retries, Raised (err max_retries)))
  /\ ((max_retries <= 0)%Z ->
        fetch max_retries retry_backoff url get = ([], Raised (RuntimeError ("Failed to fetch " ++ url))))
  /\ (forall (t1 : option string) (body : string),
        (2 <= max_retries)%Z -> get 1%Z = HttpResponse 500 t1 -> get 2%Z = HttpResponse 200 (Some body) ->
        fetch max_retries retry_backoff url get
        = ([Attempt 1; Sleep (retry_backoff * 1)%R; Attempt 2], Fetched body)).
Proof.
  split; [|split; [|split; [|split]]].
  - intros status text. reflexivity.
  - intros k body Hk Hfail Hok. unfold fetch, failed_attempts_trace.
    assert (Ek : (1 + Z.of_nat (Z.to_nat (k - 1)))%Z = k) by lia.
    rewrite (fetch_loop_first_success max_retries retry_backoff url get body (Z.to_nat (k - 1))).
    + rewrite Ek. reflexivity.
    + lia.
    + intros j Hj; apply Hfail; lia.
    + rewrite Ek. exact Hok.
  - intros err Hm Hfail. unfold fetch, failed_attempts_trace.
    rewrite (fetch_loop_all_fail max_retries retry_backoff url get err).
    + replace (1 + Z.of_nat (Z.to_nat max_retries) - 1)%Z with max_retries by lia. reflexivity.
    + lia.
    + intros j Hj; apply Hfail; lia.
  - intros Hm. unfold fetch. replace (Z.to_nat max_retries) with O by lia. reflexivity.
  - intros t1 body Hm H1 H2. unfold fetch.
    destruct (Z.to_nat max_retries) as [|[|fuel]] eqn:Ef; [lia|lia|].
    cbn [fetch_loop]. rewrite H1. simpl (attempt_outcome _).
    change (1 + 1)%Z with 2%Z. rewrite H2. simpl (attempt_outcome _).
    destruct (Z.ltb_spec 1 max_retries); [|lia]. reflexivity.
Qed.

Lemma fetch_retry_contract_witness :
  (2 <= 3)%Z
  /\ (fun n : Z => if Z.eqb n 1 then HttpResponse 500 None else HttpResponse 200 (Some "ok")) 1%Z
     = HttpResponse 500 None
  /\ (fun n : Z => if Z.eqb n 1 then HttpResponse 500 None else HttpResponse 200 (Some "ok")) 2%Z
     = HttpResponse 200 (Some "ok")
  /\ fetch 3 (3 / 2)%R "http://a/"
       (fun n : Z => if Z.eqb n 1 then HttpResponse 500 None else HttpResponse 200 (Some "ok"))
     = ([Attempt 1; Sleep (3 / 2 * 1)%R; Attempt 2], Fetched "ok").
Proof.
  split; [lia|]. split; [reflexivity|]. split; [reflexivity|].
  destruct (fetch_retry_contract 3 (3 / 2)%R "http://a/"
              (fun n : Z => if Z.eqb n 1 then HttpResponse 500 None else HttpResponse 200 (Some "ok")))
    as [_ [_ [_ [_ H]]]].
  apply (H None "ok"); [lia | reflexivity | reflexivity].
Defined.

End FetchClaims.

(* ===================================================================== *)
(** ** Robots rule cache *)
(* ===================================================================== *)

Lemma string_length_app (a b : string) :
  String.length (a ++ b) = (String.length a + String.length b)%nat.
Proof. induction a as [|c a IH]; simpl; [reflexivity | rewrite IH; reflexivity]. Qed.

Lemma string_app_cancel_r (a b s : string) : a ++ s = b ++ s -> a = b.
Proof.
  revert b; induction a as [|c a IH]; intros [|c' b] H; simpl in H.
  - reflexivity.
  - apply (f_equal String.length) in H. rewrite !string_length_app in H. simpl in H. lia.
  - apply (f_equal String.length) in H. rewrite !string_length_app in H. simpl in H. lia.
  - injection H as -> H. f_equal. apply IH, H.
Qed.

Section RobotsManagerLemmas.

Variables (user_agent : string) (py_float : string -> option R)
  (urlparse_scheme urlparse_netloc : string -> string) (respond : nat -> string -> http_result).

Abbreviation ensure := (ensure_rules user_agent py_float urlparse_scheme urlparse_netloc respond).
Abbreviation dkey := (domain_key urlparse_scheme urlparse_netloc).

Lemma ensure_rules_keeps (u : string) (st : RobotsManager_state) (d : string) (r : RobotsRules) :
  rules st !! d = Some r -> rules (ensure u st).1 !! d = Some r.
Proof.
  intros H. unfold ensure_rules; cbv zeta. destruct (rules st !! dkey u) eqn:E; simpl; [exact H|].
  rewrite lookup_insert_ne; [exact H|]. intros <-. congruence.
Qed.

Lemma ensure_rules_requests_ok (u : string) (st : RobotsManager_state) :
  requests_ok st -> requests_ok (ensure u st).1.
Proof.
  intros [Hnd Hall]. unfold ensure_rules; cbv zeta.
  destruct (rules st !! dkey u) eqn:E; simpl; [split; assumption|].
  split.
  - apply NoDup_app. split; [exact Hnd|]. split; [|apply NoDup_singleton].
    intros x Hx Hx'. apply list_elem_of_singleton in Hx'. subst x.
    apply list_elem_of_In in Hx. destruct (Hall _ Hx) as [d [Ed Hd]].
    apply string_app_cancel_r in Ed. subst d. congruence.
  - intros x Hx. apply in_app_or in Hx as [Hx|[<-|[]]].
    + destruct (Hall _ Hx) as [d [-> Hd]]. exists d. split; [reflexivity|].
      destruct (decide (dkey u = d)) as [<-|Hne].
      * congruence.
      * simpl. rewrite lookup_insert_ne by exact Hne. exact Hd.
    + exists (dkey u). split; [reflexivity|]. simpl. rewrite lookup_insert_eq. discriminate.
Qed.

Lemma ensure_rules_run_requests_ok (urls : list string) (st : RobotsManager_state) :
  requests_ok st ->
  requests_ok (ensure_rules_run user_agent py_float urlparse_scheme urlparse_netloc respond urls st).
Proof.
  revert st; induction urls as [|u urls IH]; intros st H; simpl; [exact H|].
  apply IH, ensure_rules_requests_ok, H.
Qed.

End RobotsManagerLemmas.

Section RobotsManagerClaims.

Variables (user_agent : string) (py_float : string -> option R)
  (urlparse_scheme urlparse_netloc : string -> string) (respond : nat -> string -> http_result).

(** C6: the first [ensure_rules] call for an origin issues one request for
    [origin ++ "/robots.txt"] and stores (and returns) the parsed rules on a
    200 whose text decodes, and [RobotsRules()] on any other status, an
    undecodable body or a client error, so it never fails; a later call for
    an origin with a stored decision returns it with no request and no
    change; stored decisions are never replaced; from a fresh manager, any
    sequence of calls requests each origin's robots.txt at most once. *)
Theorem ensure_rules_once_per_origin :
  (forall (u : string) (st : RobotsManager_state),
     rules st !! domain_key urlparse_scheme urlparse_netloc u = None ->
     let d := domain_key urlparse_scheme urlparse_netloc u in
     let r := rules_of_response user_agent py_float
                (respond (List.length (robots_requests st)) (d ++ "/robots.txt")) in
     ensure_rules user_agent py_float urlparse_scheme urlparse_netloc respond u st
     = (mkRobotsManagerState (<[d := r]> (rules st))
          (robots_requests st ++ [(d ++ "/robots.txt")%string])%list, r))
  /\ (forall (status : Z) (text : string),
        rules_of_response user_agent py_float (HttpResponse status (Some text))
        = if Z.eqb status 200 then parse_robots py_float user_agent text else empty_rules)
  /\ (forall status : Z, rules_of_response user_agent py_float (HttpResponse status None) = empty_rules)
  /\ (forall msg : string, rules_of_response user_agent py_float (ClientError msg) = empty_rules)
  /\ (forall (u : string) (st : RobotsManager_state) (r : RobotsRules),
        rules st !! domain_key urlparse_scheme urlparse_netloc u = Some r ->
        ensure_rules user_agent py_float urlparse_scheme urlparse_netloc respond u st = (st, r))
  /\ (forall (u : string) (st : RobotsManager_state) (d : string) (r : RobotsRules),
        rules st !! d = Some r ->
        rules (ensure_rules user_agent py_float urlparse_scheme urlparse_netloc respond u st).1 !! d
        = Some r)
  /\ (forall (urls : list string) (d : string),
        (count_occ string_dec
           (robots_requests (ensure_rules_run user_agent py_float urlparse_scheme urlparse_netloc
                               respond urls robots_manager_init))
           (d ++ "/robots.txt") <= 1)%nat).
Proof.
  split; [|split; [|split; [|split; [|split; [|split]]]]].
  - intros u st E. unfold ensure_rules; cbv zeta. rewrite E. reflexivity.
  - intros status text. reflexivity.
  - intros status. reflexivity.
  - intros msg. reflexivity.
  - intros u st r E. unfold ensure_rules; cbv zeta. rewrite E. reflexivity.
  - intros u st d r. apply ensure_rules_keeps.
  - intros urls d.
    destruct (ensure_rules_run_requests_ok user_agent py_float urlparse_scheme urlparse_netloc
                respond urls robots_manager_init) as [Hnd _].
    + split; [constructor | intros x []].
    + apply (NoDup_count_occ string_dec). apply NoDup_ListNoDup. exact Hnd.
Qed.

End RobotsManagerClaims.

Lemma ensure_rules_once_per_origin_witness :
  let sch := fun _ : string => "http" in
  let net := fun _ : string => "a" in
  let resp := fun (_ : nat) (_ : string) => ClientError "connection refused" in
  let st1 := (ensure_rules USER_AGENT (fun _ => None) sch net resp "http://a/x" robots_manager_init).1 in
  rules robots_manager_init !! domain_key sch net "http://a/x" = None
  /\ rules st1 !! domain_key sch net "http://a/y" = Some empty_rules
  /\ ensure_rules USER_AGENT (fun _ => None) sch net resp "http://a/y" st1 = (st1, empty_rules).
Proof.
  intros sch net resp st1.
  destruct (ensure_rules_once_per_origin USER_AGENT (fun _ => None) sch net resp)
    as [_ [_ [_ [_ [Hcached _]]]]].
  split; [reflexivity|]. split; [reflexivity|].
  apply Hcached. reflexivity.
Defined.

(* ===================================================================== *)
(** ** URL normalisation *)
(* ===================================================================== *)

(** C8 (code bug): the whitespace-only link [" "] passes the emptiness test
    [if not link], which runs before [link.strip()]; the stripped link is
    [""], [urljoin(base, "")] returns [base], and [normalize_url] returns
    the base URL (without fragment) instead of [None]. This holds whatever
    the rest of [urljoin] and of the fragment removal compute. *)
Theorem normalize_url_whitespace_link (urljoin_resolve : string -> string -> string)
    (drop_fragment : string -> string) :
  blank " " = true
  /\ normalize_url urljoin_resolve drop_fragment "http://a/x" (Some " ")
     = Some (drop_fragment "http://a/x").
Proof. split; reflexivity. Qed.
(* ===================================================================== *)
(** ** Text functions of [parse_html] *)
(* ===================================================================== *)

Section TextLemmas.

Local Arguments String.append : simpl nomatch.

Lemma string_app_cons (c : ascii) (a s : string) : String c a ++ s = String c (a ++ s).
Proof. reflexivity. Qed.

Lemma string_app_assoc (a b c : string) : a ++ b ++ c = (a ++ b) ++ c.
Proof. induction a as [|x a IH]; [reflexivity|]. rewrite !string_app_cons, IH. reflexivity. Qed.

Lemma string_app_nil_r (a : string) : a ++ "" = a.
Proof. induction a as [|x a IH]; [reflexivity|]. rewrite string_app_cons, IH. reflexivity. Qed.

Lemma filter_forallb_nil {A : Type} (f g : A -> bool) (l : list A) :
  forallb g l = true -> (forall x, g x = true -> f x = false) -> List.filter f l = [].
Proof.
  intros Hl H; induction l as [|x l IH]; simpl in *; [reflexivity|].
  apply andb_prop in Hl as [Hx Hl]. rewrite (H x Hx). apply IH, Hl.
Qed.

Lemma list_ascii_of_string_app (a b : string) :
  list_ascii_of_string (a ++ b) = (list_ascii_of_string a ++ list_ascii_of_string b)%list.
Proof. induction a as [|c a IH]; simpl; [reflexivity | rewrite IH; reflexivity]. Qed.

Lemma startswith_forallb (f : ascii -> bool) (kw s : string) :
  Py.startswith s kw = true -> forallb f (list_ascii_of_string s) = true ->
  forallb f (list_ascii_of_string kw) = true.
Proof.
  revert s; induction kw as [|c kw IH]; intros [|d s]; simpl; try discriminate; [reflexivity|reflexivity|].
  intros H1 H2. apply andb_prop in H1 as [Hc H1]. apply andb_prop in H2 as [Hd H2].
  apply Ascii.eqb_eq in Hc; subst d. rewrite Hd. simpl. apply (IH s); assumption.
Qed.

Lemma str_in_forallb (f : ascii -> bool) (kw s : string) :
  PyText.str_in kw s = true -> forallb f (list_ascii_of_string s) = true ->
  forallb f (list_ascii_of_string kw) = true.
Proof.
  induction s as [|d s IH]; simpl; intros H Hs.
  - rewrite orb_false_r in H. apply (startswith_forallb f kw ""); [exact H | reflexivity].
  - apply orb_prop in H as [H|H].
    + apply (startswith_forallb f kw (String d s)); [exact H | simpl; exact Hs].
    + apply andb_prop in Hs as [_ Hs]. apply IH; assumption.
Qed.

Lemma startswith_app (kw b : string) : Py.startswith (kw ++ b) kw = true.
Proof.
  induction kw as [|c kw IH]; simpl; [destruct b; reflexivity|]. rewrite Ascii.eqb_refl. exact IH.
Qed.

Lemma str_in_app (a kw b : string) : PyText.str_in kw (a ++ kw ++ b) = true.
Proof.
  induction a as [|c a IH]; simpl.
  - destruct kw as [|k kw]; simpl.
    + destruct b; reflexivity.
    + rewrite Ascii.eqb_refl, startswith_app. reflexivity.
  - rewrite IH. apply orb_true_r.
Qed.

Lemma filter_length_mono {A : Type} (f g : A -> bool) (l : list A) :
  (forall x, f x = true -> g x = true) ->
  (List.length (List.filter f l) <= List.length (List.filter g l))%nat.
Proof.
  intros H; induction l as [|x l IH]; simpl; [lia|].
  destruct (f x) eqn:E; [rewrite (H x E); simpl; lia|]. destruct (g x); simpl; lia.
Qed.

Lemma filter_all_false {A : Type} (f : A -> bool) (l : list A) :
  Forall (fun x => f x = false) l -> List.filter f l = [].
Proof. intros H; induction H as [|x l Hx _ IH]; simpl; [reflexivity | rewrite Hx; exact IH]. Qed.


Lemma split_aux_word (w r cur : string) :
  forallb (fun c => negb (Py.isspace c)) (list_ascii_of_string w) = true ->
  PyText.split_aux (w ++ r) cur = PyText.split_aux r (cur ++ w).
Proof.
  revert cur; induction w as [|c w IH]; intros cur H; simpl.
  - rewrite string_app_nil_r. reflexivity.
  - simpl in H. apply andb_prop in H as [Hc H]. apply negb_true_iff in Hc. rewrite Hc.
    rewrite IH by exact H. unfold Py.snoc. rewrite <- string_app_assoc. reflexivity.
Qed.

Lemma split_aux_ok (s cur : string) :
  forallb (fun c => negb (Py.isspace c)) (list_ascii_of_string cur) = true ->
  Forall (fun w => word_ok w = true) (PyText.split_aux s cur).
Proof.
  revert cur; induction s as [|c s IH]; intros cur H; simpl.
  - destruct (Py.truthy cur) eqn:E; constructor; [unfold word_ok; rewrite E, H; reflexivity|constructor].
  - destruct (Py.isspace c) eqn:Ec.
    + destruct (Py.truthy cur) eqn:E; [constructor; [unfold word_ok; rewrite E, H; reflexivity|]|];
        apply IH; reflexivity.
    + apply IH. unfold Py.snoc. rewrite list_ascii_of_string_app, forallb_app, H. simpl.
      rewrite Ec. reflexivity.
Qed.

Lemma split_join (ws : list string) :
  Forall (fun w => word_ok w = true) ws -> PyText.split (PyText.join " " ws) = ws.
Proof.
  unfold PyText.split. induction ws as [|w [|w2 ws] IH]; intros H; [reflexivity| |].
  - inversion H as [|? ? Hw _]; subst. unfold word_ok in Hw. apply andb_prop in Hw as [Ht Hs].
    simpl. rewrite <- (string_app_nil_r w) at 1. rewrite split_aux_word by exact Hs.
    simpl. rewrite Ht. reflexivity.
  - inversion H as [|? ? Hw Hr]; subst. unfold word_ok in Hw. apply andb_prop in Hw as [Ht Hs].
    change (PyText.join " " (w :: w2 :: ws)) with (w ++ " " ++ PyText.join " " (w2 :: ws)).
    rewrite split_aux_word by exact Hs. simpl. rewrite Ht.
    f_equal. apply IH, Hr.
Qed.

Lemma collapse_ws_idem (s : string) : collapse_ws (collapse_ws s) = collapse_ws s.
Proof.
  unfold collapse_ws. rewrite split_join; [reflexivity|]. apply split_aux_ok. reflexivity.
Qed.

Lemma substring_0_length (n : nat) (s : string) :
  String.length (substring 0 n s) = Nat.min n (String.length s).
Proof.
  revert n; induction s as [|c s IH]; intros [|n]; simpl; try reflexivity. rewrite IH. reflexivity.
Qed.

Lemma substring_0_startswith (n : nat) (s : string) : Py.startswith s (substring 0 n s) = true.
Proof.
  revert n; induction s as [|c s IH]; intros [|n]; simpl; try reflexivity.
  rewrite Ascii.eqb_refl. apply IH.
Qed.

Lemma substring_0_truthy (n : nat) (s : string) :
  (0 < n)%nat -> Py.truthy s = true -> Py.truthy (substring 0 n s) = true.
Proof. intros Hn; destruct s as [|c s]; [discriminate|]. destruct n; [lia|]. reflexivity. Qed.

Lemma lstrip_blank (s : string) : blank s = true -> Py.lstrip s = "".
Proof.
  induction s as [|c s IH]; simpl; [reflexivity|]. unfold blank; simpl.
  intros H; apply andb_prop in H as [Hc H]. rewrite Hc. apply IH, H.
Qed.

Lemma strip_blank (s : string) : blank s = true -> Py.strip s = "".
Proof. intros H. unfold Py.strip. rewrite lstrip_blank by exact H. reflexivity. Qed.

End TextLemmas.

Section TextProperties.

(** The keywords of [_looks_like_code_or_css] each hold a character that
    is neither a letter nor a digit. *)
Lemma code_keywords_not_alnum :
  Forall (fun kw => forallb PyText.isalnum (list_ascii_of_string kw) = false) code_keywords.
Proof. vm_compute. repeat constructor. Qed.

(** [_looks_like_code_or_css] drops every line longer than 400 characters,
    keeps the empty line, and keeps every line of at most 400 characters
    made only of letters and digits (no special character, and every code
    keyword holds a character that is not alphanumeric). *)
Theorem looks_like_code_or_css_bounds :
  looks_like_code_or_css "" = false
  /\ (forall line : string, (400 < String.length line)%nat -> looks_like_code_or_css line = true)
  /\ (forall line : string,
        forallb PyText.isalnum (list_ascii_of_string line) = true ->
        (String.length line <= 400)%nat -> looks_like_code_or_css line = false).
Proof.
  split; [reflexivity|]. split.
  - intros line H. unfold looks_like_code_or_css.
    destruct line as [|c l]; [simpl in H; lia|]. simpl (negb _); cbv iota.
    destruct (Nat.ltb_spec 400 (String.length (String c l))); [reflexivity | lia].
  - intros line Ha Hl. unfold looks_like_code_or_css.
    destruct (Py.truthy line); [|reflexivity]. simpl (negb true); cbv iota.
    destruct (Nat.ltb_spec 400 (String.length line)); [lia|].
    rewrite (filter_forallb_nil _ PyText.isalnum _ Ha) by (intros c Hc; rewrite Hc; reflexivity).
    simpl (List.length []). rewrite Nat.mul_0_r.
    replace ((7 * String.length line <? 0)%nat) with false by (symmetry; apply Nat.ltb_ge; lia).
    rewrite andb_false_r. cbv iota.
    rewrite filter_all_false; [reflexivity|].
    eapply Forall_impl; [apply code_keywords_not_alnum|]. intros kw Hkw; simpl in Hkw.
    destruct (PyText.str_in kw line) eqn:E; [|reflexivity].
    rewrite (str_in_forallb PyText.isalnum kw line E Ha) in Hkw. discriminate.
Qed.

(** A line holding ["let "], ["return "] and ["const "] is dropped as code,
    whatever else it holds: ordinary prose such as
    ["let me return to the const..."] is removed from [content]. *)
Theorem looks_like_code_three_keywords (a b c d : string) :
  looks_like_code_or_css (a ++ "let " ++ b ++ "return " ++ c ++ "const " ++ d) = true.
Proof.
  set (line := a ++ "let " ++ b ++ "return " ++ c ++ "const " ++ d).
  assert (Hlet : PyText.str_in "let " line = true) by apply str_in_app.
  assert (Hret : PyText.str_in "return " line = true).
  { replace line with ((a ++ "let " ++ b) ++ "return " ++ (c ++ "const " ++ d))
      by (unfold line; rewrite <- !string_app_assoc; reflexivity).
    apply str_in_app. }
  assert (Hcon : PyText.str_in "const " line = true).
  { replace line with ((a ++ "let " ++ b ++ "return " ++ c) ++ "const " ++ d)
      by (unfold line; rewrite <- !string_app_assoc; reflexivity).
    apply str_in_app. }
  assert (Ht : Py.truthy line = true) by (unfold line; destruct a; reflexivity).
  assert (Hhits : (3 <= List.length (List.filter (fun kw => PyText.str_in kw line) code_keywords))%nat).
  { refine (Nat.le_trans _ _ _ _ (filter_length_mono
      (fun kw => String.eqb kw "let " || String.eqb kw "return " || String.eqb kw "const ") _
      code_keywords _)).
    - vm_compute. lia.
    - intros kw Hkw. apply orb_prop in Hkw as [Hkw|Hkw]; [apply orb_prop in Hkw as [Hkw|Hkw]|];
        apply String.eqb_eq in Hkw; subst kw; assumption. }
  unfold looks_like_code_or_css. rewrite Ht. simpl (negb true); cbv iota.
  destruct (400 <? _)%nat; [reflexivity|].
  destruct (_ && _); [reflexivity|].
  apply Nat.leb_le. exact Hhits.
Qed.

(** The [content] field of [parse_html] is whitespace-normalised:
    splitting it on whitespace and joining with single spaces gives it back
    (no leading, trailing or repeated whitespace, no tab or newline). *)
Theorem parse_content_normalised (text : string) :
  collapse_ws (parse_content text) = parse_content text.
Proof. unfold parse_content. apply collapse_ws_idem. Qed.

(** The fields [parse_html] derives from [content]: [content_length] is
    its length, [summary] its first 250 characters, [meta_description] is
    never empty when [content] is not, [canonical_url] is never empty when
    the URL is not, and [url] is the URL given. *)
Theorem parse_html_derived_fields (now url_ : string) (v : html_view) :
  let d := parse_html now url_ v in
  pd_url d = url_
  /\ pd_content d = parse_content (main_text v)
  /\ pd_content_length d = Z.of_nat (String.length (pd_content d))
  /\ pd_summary d = PyText.prefix 250 (pd_content d)
  /\ String.length (pd_summary d) = Nat.min 250 (String.length (pd_content d))
  /\ Py.startswith (pd_content d) (pd_summary d) = true
  /\ (Py.truthy (pd_content d) = true -> Py.truthy (pd_meta_description d) = true)
  /\ (Py.truthy url_ = true -> Py.truthy (pd_canonical_url d) = true).
Proof.
  cbv zeta. unfold parse_html; cbn [pd_url pd_content pd_content_length pd_summary
    pd_meta_description pd_canonical_url].
  set (c := parse_content (main_text v)).
  assert (Hs : (if Py.truthy c then PyText.prefix 250 c else "") = PyText.prefix 250 c)
    by (destruct c; reflexivity).
  rewrite Hs. unfold PyText.prefix.
  split; [reflexivity|]. split; [reflexivity|]. split; [reflexivity|]. split; [reflexivity|].
  split; [apply substring_0_length|]. split; [apply substring_0_startswith|]. split.
  - intros Hc. rewrite Hc, andb_true_r.
    destruct (Py.truthy (extract_meta_tag _ _ _)) eqn:E; simpl; [exact E|].
    apply substring_0_truthy; [lia | exact Hc].
  - intros Hu. destruct (Py.truthy (Py.strip (canonical_href v))) eqn:E; assumption.
Qed.

(** [_extract_meta_tag] returns the stripped content of the first tag
    whose [content] is non-empty, so a whitespace-only
    [<meta name="description">] yields [""] without looking at
    [og:description] or [twitter:description]; [parse_html] then falls back
    on the first 160 characters of [content]. *)
Theorem parse_html_blank_description (now url_ : string) (v : html_view) :
  Py.truthy (meta_content v "name" "description") = true ->
  blank (meta_content v "name" "description") = true ->
  extract_meta_tag (meta_content v) ["description"] ["og:description"; "twitter:description"] = ""
  /\ pd_meta_description (parse_html now url_ v) = PyText.prefix 160 (parse_content (main_text v)).
Proof.
  intros Ht Hb.
  assert (He : extract_meta_tag (meta_content v) ["description"] ["og:description"; "twitter:description"] = "").
  { unfold extract_meta_tag; simpl. rewrite Ht. apply strip_blank, Hb. }
  split; [exact He|].
  unfold parse_html; cbn [pd_meta_description]. rewrite He. simpl (negb _).
  destruct (parse_content (main_text v)); reflexivity.
Qed.

End TextProperties.

(* ===================================================================== *)
(** ** Indexing and search *)
(* ===================================================================== *)

Section IndexerLemmas.

Open Scope R_scope.

Lemma compute_ranking_score_fresh (clock_ms n : Z) (d : R) :
  compute_ranking_score clock_ms 0 0 None (Some n) d = Some 0.
Proof.
  unfold compute_ranking_score, compute_decay_hours. simpl (Z.leb _ _); cbv iota.
  f_equal. change (IZR (0 + 1)) with 1. rewrite ln_1. ring.
Qed.

Lemma setdefault_field_idem {A : Type} (f d d' : pyfield A) :
  d <> Missing -> setdefault_field (setdefault_field f d) d' = setdefault_field f d.
Proof. intros Hd; destruct f, d; simpl; congruence. Qed.

Lemma with_click_defaults_fresh_fields (clock_ms : Z) :
  with_click_defaults clock_ms fresh_click_fields
  = Some (mkClickFields (Val 0%Z) (Val 0) (Val 0) Null Null).
Proof.
  unfold with_click_defaults, fresh_click_fields; cbn [setdefault_field f_clicks_total
    f_recent_clicks f_ranking_score f_last_clicked_at f_last_clicked_at_ms field_get].
  unfold score_unset. destruct (Req_dec_T 0 0) as [_|H]; [|congruence].
  rewrite compute_ranking_score_fresh. reflexivity.
Qed.

End IndexerLemmas.

Section IndexerProperties.

Open Scope R_scope.

(** A dict without click fields (what [parse_html] returns) is prepared
    with [clicks_total = 0], [recent_clicks = 0.0], null click timestamps
    and [ranking_score = 0.0], at any time. *)
Theorem with_click_defaults_fresh (clock_ms : Z) :
  with_click_defaults clock_ms fresh_click_fields
  = Some (mkClickFields (Val 0%Z) (Val 0) (Val 0) Null Null).
Proof. apply with_click_defaults_fresh_fields. Qed.

(** Preparing a prepared dict again at the same instant changes nothing. *)
Theorem with_click_defaults_idempotent (clock_ms : Z) (cf cf' : click_fields) :
  with_click_defaults clock_ms cf = Some cf' -> with_click_defaults clock_ms cf' = Some cf'.
Proof.
  destruct cf as [ct rc rs la lm]. unfold with_click_defaults; cbn [f_clicks_total f_recent_clicks
    f_ranking_score f_last_clicked_at f_last_clicked_at_ms].
  set (ct' := setdefault_field ct (Val 0%Z)). set (rc' := setdefault_field rc (Val 0)).
  set (rs' := setdefault_field rs (Val 0)). set (la' := setdefault_field la Null).
  set (lm' := setdefault_field lm Null).
  assert (Eidem : forall (A : Type) (f : pyfield A) (d : pyfield A),
             d <> Missing -> setdefault_field f d <> Missing).
  { intros A f d Hd; destruct f; simpl; congruence. }
  destruct (score_unset rs') eqn:Es.
  - destruct ct' as [| |c] eqn:Ect; try discriminate.
    destruct rc' as [| |r] eqn:Erc; try discriminate.
    destruct (compute_ranking_score clock_ms c r (field_get lm') (Some clock_ms) RANKING_DECAY_PER_HOUR)
      as [s|] eqn:Ecr; [|discriminate].
    intros E; injection E as <-. cbn [f_clicks_total f_recent_clicks f_ranking_score
      f_last_clicked_at f_last_clicked_at_ms setdefault_field].
    assert (Hla : setdefault_field la' Null = la')
      by (unfold la'; destruct la; reflexivity).
    assert (Hlm : setdefault_field lm' Null = lm')
      by (unfold lm'; destruct lm; reflexivity).
    rewrite Hla, Hlm. unfold score_unset. destruct (Req_dec_T s 0); [|reflexivity].
    rewrite Ecr. reflexivity.
  - intros E; injection E as <-. cbn [f_clicks_total f_recent_clicks f_ranking_score
      f_last_clicked_at f_last_clicked_at_ms].
    unfold ct', rc', rs', la', lm'.
    rewrite !setdefault_field_idem by discriminate.
    fold ct' rc' rs' la' lm'. rewrite Es. reflexivity.
Qed.

(** A stored non-zero [ranking_score] is kept as it is, and preparing the
    dict then never raises, even with null counters; when the score has to
    be computed ([ranking_score] absent, [None] or [0.0]) a null
    [clicks_total] or [recent_clicks] makes it raise. *)
Theorem with_click_defaults_score_rules (clock_ms : Z) (cf : click_fields) :
  (forall r : R, f_ranking_score cf = Val r -> r <> 0 ->
     with_click_defaults clock_ms cf
     = Some (mkClickFields (setdefault_field (f_clicks_total cf) (Val 0%Z))
               (setdefault_field (f_recent_clicks cf) (Val 0)) (Val r)
               (setdefault_field (f_last_clicked_at cf) Null)
               (setdefault_field (f_last_clicked_at_ms cf) Null)))
  /\ ((f_ranking_score cf = Missing \/ f_ranking_score cf = Null \/ f_ranking_score cf = Val 0) ->
      (f_clicks_total cf = Null \/ f_recent_clicks cf = Null) ->
      with_click_defaults clock_ms cf = None).
Proof.
  destruct cf as [ct rc rs la lm]; cbn [f_clicks_total f_recent_clicks f_ranking_score
    f_last_clicked_at f_last_clicked_at_ms]. split.
  - intros r -> Hr. unfold with_click_defaults; simpl. unfold score_unset.
    destruct (Req_dec_T r 0); [contradiction | reflexivity].
  - intros Hrs Hnull. unfold with_click_defaults; simpl.
    assert (Hu : score_unset (setdefault_field rs (Val 0)) = true).
    { destruct Hrs as [ -> | [ -> | -> ] ]; simpl; [| reflexivity |];
        unfold score_unset; destruct (Req_dec_T 0 0); congruence. }
    rewrite Hu. destruct Hnull as [Hn|Hn]; rewrite Hn; [reflexivity|].
    destruct ct; reflexivity.
Qed.

End IndexerProperties.

Section PipelineProperties.

Open Scope R_scope.



End PipelineProperties.

Section SearchProperties.

Open Scope R_scope.

(** What [search] shows for a hit without highlight: for a page written
    by the crawler with a non-empty [content], the snippet is its
    [summary], the first 250 characters of [content], never empty; for a
    URL known only from [track_click] (the upserted stub), the title is the
    URL and the snippet is empty. *)
Theorem search_result_snippets :
  (forall (now u : string) (v : html_view) (cf : click_fields),
     Py.truthy (parse_content (main_text v)) = true ->
     let r := search_result_of_hit [] (to_page_doc (parse_html now u v) cf) in
     sr_url r = u
     /\ sr_snippet r = PyText.prefix 250 (parse_content (main_text v))
     /\ Py.truthy (sr_snippet r) = true)
  /\ (forall (clock_ms : Z) (iso : string) (ev : ClickEvent) (st st' : es_state) (resp : string * string),
        pages st !! event_url ev = None ->
        track_click clock_ms iso ev st = Some (st', resp) ->
        exists d : page_doc,
          pages st' !! event_url ev = Some d
          /\ search_result_of_hit [] d
             = mkSearchResult (event_url ev) (event_url ev) "" (Some (ln 2 + 7 / 10))).
Proof.
  split.
  - intros now u v cf Hc. cbv zeta. unfold search_result_of_hit, to_page_doc, parse_html;
      cbn [url summary sr_url sr_snippet pd_url pd_summary].
    set (c := parse_content (main_text v)). fold c in Hc. rewrite Hc.
    assert (Hp : Py.truthy (PyText.prefix 250 c) = true) by (apply substring_0_truthy; [lia | exact Hc]).
    rewrite Hp. split; [reflexivity|]. split; [reflexivity | exact Hp].
  - intros clock_ms iso ev st st' resp Hnone E. unfold track_click in E.
    rewrite first_click_score in E. injection E as <- _.
    eexists. simpl. unfold es_update. rewrite Hnone, lookup_insert_eq. split; [reflexivity|].
    unfold search_result_of_hit; simpl. destruct (Py.truthy (event_url ev)); reflexivity.
Qed.

End SearchProperties.

(* ===================================================================== *)
(** ** Robots rules and crawl delay *)
(* ===================================================================== *)

Section RobotsExtraLemmas.

Local Arguments String.append : simpl nomatch.

Lemma lower_char_idem (c : ascii) : Py.lower_char (Py.lower_char c) = Py.lower_char c.
Proof. destruct c as [[] [] [] [] [] [] [] []]; reflexivity. Qed.

Lemma lower_idem (s : string) : Py.lower (Py.lower s) = Py.lower s.
Proof. induction s as [|c s IH]; simpl; [reflexivity|]. rewrite lower_char_idem, IH. reflexivity. Qed.

Lemma parse_line_no_agent (py_float : string -> option R) (st : parse_state) (l : string) :
  current_agents st = [] -> robots_line_key l <> Some "user-agent" ->
  rules_map (parse_line py_float st l) = rules_map st
  /\ current_agents (parse_line py_float st l) = [].
Proof.
  intros Hc Hk. unfold robots_line_key in Hk. unfold parse_line.
  destruct (negb (Py.truthy _) || negb (Py.contains ":" _)); [auto|].
  destruct (Py.split1 ":" _) as [k v]. simpl in Hk.
  destruct (String.eqb (Py.lower (Py.strip k)) "user-agent") eqn:E.
  { apply String.eqb_eq in E. congruence. }
  rewrite Hc.
  destruct (String.eqb _ "allow" || String.eqb _ "disallow"); [auto|].
  destruct (String.eqb _ "crawl-delay"); simpl; auto.
Qed.

Lemma fold_parse_line_no_agent (py_float : string -> option R) (ls : list string) (st : parse_state) :
  current_agents st = [] -> Forall (fun l => robots_line_key l <> Some "user-agent") ls ->
  rules_map (fold_left (parse_line py_float) ls st) = rules_map st.
Proof.
  revert st. induction ls as [|l ls IH]; intros st Hc Hf; simpl; [reflexivity|].
  inversion Hf; subst.
  destruct (parse_line_no_agent py_float st l Hc) as [Hr Ha]; auto.
  rewrite IH; auto.
Qed.

Lemma is_allowed_empty_rules (p : string) : is_allowed empty_rules p = true.
Proof. reflexivity. Qed.

Lemma startswith_slash_app (s x : string) :
  Py.startswith s "/" = true -> Py.startswith (s ++ x) "/" = true.
Proof.
  assert (forall t, Py.startswith t "" = true) as E by (intros [|? ?]; reflexivity).
  destruct s as [|c s]; simpl; [discriminate|]. rewrite !E. auto.
Qed.

Lemma robots_path_slash (scheme netloc path query : string -> string) (u : string) :
  (path u = "" \/ Py.startswith (path u) "/" = true) ->
  Py.startswith (robots_path path query u) "/" = true.
Proof.
  intros Hp. unfold robots_path.
  assert (Py.startswith (if Py.truthy (path u) then path u else "/") "/" = true) as H.
  { destruct Hp as [Hp|Hp]; rewrite ?Hp; [reflexivity|].
    destruct (Py.truthy (path u)); auto. }
  destruct (Py.truthy (query u)); auto using startswith_slash_app.
Qed.

Lemma is_allowed_disallow_root (p : string) (cd : option R) :
  Py.startswith p "/" = true -> is_allowed (mkRobotsRules [] ["/"] cd) p = false.
Proof.
  intros H. unfold is_allowed, longest_prefix_length. simpl. rewrite H. reflexivity.
Qed.

End RobotsExtraLemmas.

Section RobotsExtraProperties.

(** The crawler's own agent name is matched without regard to case:
    [_parse_robots] only ever uses [user_agent.lower()]. *)
Theorem parse_robots_agent_case_insensitive (py_float : string -> option R) (ua content : string) :
  parse_robots py_float ua content = parse_robots py_float (Py.lower ua) content.
Proof. unfold parse_robots. rewrite lower_idem. reflexivity. Qed.

(** Rules outside any group are ignored: a robots.txt without a
    [User-agent] line parses to [RobotsRules()], which allows every path. *)
Theorem parse_robots_without_user_agent (py_float : string -> option R) (ua content : string) :
  Forall (fun l => robots_line_key l <> Some "user-agent") (Py.splitlines content) ->
  parse_robots py_float ua content = empty_rules
  /\ forall p, is_allowed (parse_robots py_float ua content) p = true.
Proof.
  intros Hf.
  assert (parse_robots py_float ua content = empty_rules) as E.
  { unfold parse_robots. rewrite fold_parse_line_no_agent by (auto || reflexivity).
    reflexivity. }
  split; [exact E|]. intros p. rewrite E. apply is_allowed_empty_rules.
Qed.

Lemma parse_robots_without_user_agent_witness :
  Forall (fun l => robots_line_key l <> Some "user-agent") (Py.splitlines "Disallow: /")
  /\ parse_robots (fun _ => None) USER_AGENT "Disallow: /" = empty_rules
  /\ (forall p, is_allowed (parse_robots (fun _ => None) USER_AGENT "Disallow: /") p = true).
Proof.
  assert (Forall (fun l => robots_line_key l <> Some "user-agent") (Py.splitlines "Disallow: /")) as H.
  { vm_compute. constructor; [discriminate | constructor]. }
  split; [exact H|]. exact (parse_robots_without_user_agent (fun _ => None) USER_AGENT "Disallow: /" H).
Defined.

Variables (urlparse_scheme urlparse_netloc urlparse_path urlparse_query : string -> string).

(** An origin without stored rules, and an origin whose robots.txt request
    failed or answered other than 200, is fully allowed. *)
Theorem RobotsManager_is_allowed_default (user_agent : string) (py_float : string -> option R)
    (respond : nat -> string -> http_result) (st : RobotsManager_state) (u v : string) :
  (rules st !! domain_key urlparse_scheme urlparse_netloc v = None ->
   RobotsManager_is_allowed urlparse_scheme urlparse_netloc urlparse_path urlparse_query st v = true)
  /\ (rules st !! domain_key urlparse_scheme urlparse_netloc u = None ->
      (match respond (List.length (robots_requests st))
               (domain_key urlparse_scheme urlparse_netloc u ++ "/robots.txt") with
       | HttpResponse status _ => status <> 200%Z
       | ClientError _ => True end) ->
      domain_key urlparse_scheme urlparse_netloc v = domain_key urlparse_scheme urlparse_netloc u ->
      RobotsManager_is_allowed urlparse_scheme urlparse_netloc urlparse_path urlparse_query
        (ensure_rules user_agent py_float urlparse_scheme urlparse_netloc respond u st).1 v = true).
Proof.
  split.
  - intros H. unfold RobotsManager_is_allowed. rewrite H. apply is_allowed_empty_rules.
  - intros Hnone Hresp Hdom. unfold ensure_rules. rewrite Hnone. simpl.
    unfold RobotsManager_is_allowed. simpl. rewrite Hdom, lookup_insert_eq. simpl.
    unfold rules_of_response.
    destruct (respond _ _) as [status [text|]|msg]; try apply is_allowed_empty_rules.
    apply Z.eqb_neq in Hresp. rewrite Hresp. apply is_allowed_empty_rules.
Qed.

(** A stored [Disallow: /] group without [Allow] lines blocks every URL of
    the origin whose path is empty or absolute (also with a query); the
    path [_path] hands to [is_allowed] is never empty. *)
Theorem RobotsManager_disallow_root (st : RobotsManager_state) (u : string) (cd : option R) :
  Py.truthy (robots_path urlparse_path urlparse_query u) = true
  /\ (rules st !! domain_key urlparse_scheme urlparse_netloc u = Some (mkRobotsRules [] ["/"] cd) ->
      (urlparse_path u = "" \/ Py.startswith (urlparse_path u) "/" = true) ->
      RobotsManager_is_allowed urlparse_scheme urlparse_netloc urlparse_path urlparse_query st u = false).
Proof.
  split.
  - unfold robots_path.
    destruct (Py.truthy (urlparse_path u)) eqn:E;
      destruct (Py.truthy (urlparse_query u)); simpl; auto;
      destruct (urlparse_path u); simpl in *; congruence.
  - intros Hr Hp. unfold RobotsManager_is_allowed. rewrite Hr. simpl.
    apply is_allowed_disallow_root. eapply robots_path_slash; eauto.
Qed.

(** Without a positive crawl delay for the origin [wait_for_crawl_delay]
    neither sleeps nor records anything; with one, it records the next
    allowed time of that origin only and sleeps at most once, for the time
    left until the recorded instant. *)
Theorem wait_for_crawl_delay_cases (st : RobotsManager_state) (na : gmap string R)
    (u : string) (now1 now2 : R) :
  let domain := domain_key urlparse_scheme urlparse_netloc u in
  let delay := crawl_delay_or_zero (default empty_rules (rules st !! domain)) in
  ((delay <= 0)%R ->
   wait_for_crawl_delay urlparse_scheme urlparse_netloc st na u now1 now2 = (na, []))
  /\ ((0 < delay)%R ->
      exists sleeps,
        wait_for_crawl_delay urlparse_scheme urlparse_netloc st na u now1 now2
          = (<[domain := (now2 + delay)%R]> na, sleeps)
        /\ (sleeps = [] /\ (default now1 (na !! domain) <= now1)%R
            \/ sleeps = [(default now1 (na !! domain) - now1)%R]
               /\ (now1 < default now1 (na !! domain))%R)).
Proof.
  intros domain delay. unfold wait_for_crawl_delay. fold domain. fold delay. split.
  - intros H. destruct (Rle_dec delay 0); [reflexivity|lra].
  - intros H. destruct (Rle_dec delay 0); [lra|].
    eexists; split; [reflexivity|].
    set (t := default now1 (na !! domain)).
    unfold Rmax. destruct (Rle_dec 0 (t - now1)).
    + destruct (Rlt_dec 0 (t - now1)).
      * right. split; [reflexivity|lra].
      * left. split; [reflexivity|lra].
    + destruct (Rlt_dec 0 0); [lra|]. left. split; [reflexivity|lra].
Qed.

(** Two requests to an origin with a positive crawl delay proceed at least
    that delay apart: after a first call returning at [b1], a second call
    for the same origin starting at [a2 >= b1] returns no earlier than
    [b1 + delay] once its sleeps have elapsed. *)
Theorem wait_for_crawl_delay_spacing (st : RobotsManager_state) (na na1 na2 : gmap string R)
    (u u' : string) (a1 b1 a2 b2 : R) (s1 s2 : list R) :
  let delay := crawl_delay_or_zero
                 (default empty_rules (rules st !! domain_key urlparse_scheme urlparse_netloc u)) in
  domain_key urlparse_scheme urlparse_netloc u' = domain_key urlparse_scheme urlparse_netloc u ->
  (0 < delay)%R ->
  wait_for_crawl_delay urlparse_scheme urlparse_netloc st na u a1 b1 = (na1, s1) ->
  wait_for_crawl_delay urlparse_scheme urlparse_netloc st na1 u' a2 b2 = (na2, s2) ->
  (b1 <= a2)%R ->
  (a2 + fold_right Rplus 0 s2 <= b2)%R ->
  (b1 + delay <= b2)%R.
Proof.
  intros delay Hdom Hpos H1 H2 Hb Hs.
  unfold wait_for_crawl_delay in H1, H2. rewrite Hdom in H2. fold delay in H1, H2.
  destruct (Rle_dec delay 0); [lra|].
  inversion H1; subst na1 s1; clear H1.
  rewrite lookup_insert_eq in H2. simpl in H2.
  inversion H2; subst na2 s2; clear H2.
  unfold Rmax in Hs. destruct (Rle_dec 0 (b1 + delay - a2)).
  - destruct (Rlt_dec 0 (b1 + delay - a2)); simpl in Hs; lra.
  - destruct (Rlt_dec 0 0); simpl in Hs; lra.
Qed.

End RobotsExtraProperties.
(* ===================================================================== *)
(** ** Links, fetch outcomes, frontier and decay *)
(* ===================================================================== *)

Section LinksProperties.

Variables (urljoin_resolve : string -> string -> string) (drop_fragment : string -> string)
  (urlparse_netloc : string -> string).


End LinksProperties.

Section FetchConverse.

Variables (max_retries : Z) (retry_backoff : R) (url : string) (get : Z -> http_result).

Lemma fetch_loop_fetched_inv :
  forall (fuel : nat) (a : Z) (le : option fetch_exn) (tr : list fetch_event) (body : string),
  fetch_loop max_retries retry_backoff url get fuel a le = (tr, Fetched body) ->
  exists n : nat, (n < fuel)%nat
    /\ (forall j, (a <= j < a + Z.of_nat n)%Z -> exists e, attempt_outcome (get j) = inr e)
    /\ attempt_outcome (get (a + Z.of_nat n)%Z) = inl body.
Proof.
  induction fuel as [|fuel IH]; intros a le tr body E; cbn [fetch_loop] in E; [discriminate|].
  destruct (attempt_outcome (get a)) as [b|ex] eqn:Ea.
  - injection E as _ <-. exists O. split; [lia|]. split.
    + intros j Hj; lia.
    + rewrite Z.add_0_r. exact Ea.
  - destruct (fetch_loop max_retries retry_backoff url get fuel (a + 1) (Some ex)) as [tr' r] eqn:E'.
    injection E as _ ->.
    destruct (IH _ _ _ _ E') as (n & Hn & Hf & Ho).
    exists (S n). split; [lia|]. split.
    + intros j Hj. destruct (Z.eq_dec j a) as [->|Hne]; [eauto|]. apply Hf; lia.
    + replace (a + Z.of_nat (S n))%Z with (a + 1 + Z.of_nat n)%Z by lia. exact Ho.
Qed.

Lemma fetch_loop_raised_inv :
  forall (fuel : nat) (a : Z) (le : option fetch_exn) (tr : list fetch_event) (e : fetch_exn),
  fetch_loop max_retries retry_backoff url get fuel a le = (tr, Raised e) ->
  (forall j, (a <= j < a + Z.of_nat fuel)%Z -> exists e', attempt_outcome (get j) = inr e')
  /\ ((0 < fuel)%nat -> attempt_outcome (get (a + Z.of_nat fuel - 1)%Z) = inr e).
Proof.
  induction fuel as [|fuel IH]; intros a le tr e E; cbn [fetch_loop] in E.
  - split; [intros j Hj; lia | intros H; lia].
  - destruct (attempt_outcome (get a)) as [b|ex] eqn:Ea; [discriminate|].
    destruct (fetch_loop max_retries retry_backoff url get fuel (a + 1) (Some ex)) as [tr' r] eqn:E'.
    injection E as _ ->.
    destruct (IH _ _ _ _ E') as [Hf Hl]. split.
    + intros j Hj. destruct (Z.eq_dec j a) as [->|Hne]; [eauto|]. apply Hf; lia.
    + intros _. destruct fuel as [|fuel'].
      * cbn [fetch_loop] in E'. injection E' as _ <-.
        replace (a + Z.of_nat 1 - 1)%Z with a by lia. exact Ea.
      * replace (a + Z.of_nat (S (S fuel')) - 1)%Z with (a + 1 + Z.of_nat (S fuel') - 1)%Z by lia.
        apply Hl. lia.
Qed.

End FetchConverse.

(** Whatever the server does, a page is returned only by the first
    successful attempt [k] (with [1 <= k <= max_retries]), after failed
    attempts [1..k-1] and their back-off sleeps; an exception is raised only
    when every attempt failed, and it is the error of the last attempt. *)
Theorem fetch_outcome_cases (max_retries : Z) (retry_backoff : R) (url : string)
    (get : Z -> http_result) :
  (forall tr body,
     fetch max_retries retry_backoff url get = (tr, Fetched body) ->
     exists k, (1 <= k <= max_retries)%Z
       /\ (forall j, (1 <= j < k)%Z -> exists e, attempt_outcome (get j) = inr e)
       /\ attempt_outcome (get k) = inl body
       /\ tr = (failed_attempts_trace max_retries retry_backoff (k - 1) ++ [Attempt k])%list)
  /\ (forall tr e,
        fetch max_retries retry_backoff url get = (tr, Raised e) ->
        (forall j, (1 <= j <= max_retries)%Z -> exists e', attempt_outcome (get j) = inr e')
        /\ ((1 <= max_retries)%Z -> attempt_outcome (get max_retries) = inr e)).
Proof.
  split.
  - intros tr body E. unfold fetch in E.
    destruct (fetch_loop_fetched_inv max_retries retry_backoff url get _ _ _ _ _ E)
      as (n & Hn & Hf & Ho).
    exists (1 + Z.of_nat n)%Z. split; [lia|]. split; [|split; [exact Ho|]].
    + intros j Hj. apply Hf. lia.
    + rewrite (fetch_loop_first_success max_retries retry_backoff url get body n) in E; auto.
      injection E as <-. unfold failed_attempts_trace.
      replace (Z.to_nat (1 + Z.of_nat n - 1)) with n by lia. reflexivity.
  - intros tr e E. unfold fetch in E.
    destruct (fetch_loop_raised_inv max_retries retry_backoff url get _ _ _ _ _ E) as [Hf Hl].
    split.
    + intros j Hj. apply Hf. lia.
    + intros Hm. replace (1 + Z.of_nat (Z.to_nat max_retries) - 1)%Z with max_retries in Hl by lia.
      apply Hl. lia.
Qed.

Section FrontierProperties.

Lemma frontier_step_enqueued_mono (mp : Z) (s s' : Crawler_state) :
  frontier_step mp s s' -> enqueued s ⊆ enqueued s'.
Proof.
  destruct 1 as [u s0 b s1 E|u s0|s0 s1 r E].
  - unfold mark_enqueued in E. destruct (_ || _ || _); injection E as <- _; simpl; set_solver.
  - simpl. set_solver.
  - unfold increment_pages in E. destruct (Z.geb _ _); injection E as <- _; simpl; set_solver.
Qed.

(** [_mark_enqueued] accepts a URL at most once: after it has returned
    [True] for [u], it returns [False] for [u] whatever frontier operations
    follow. *)
Theorem mark_enqueued_at_most_once (mp : Z) (u : string) (s s1 s2 : Crawler_state) :
  mark_enqueued u s = (s1, true) ->
  rtc (frontier_step mp) s1 s2 ->
  mark_enqueued u s2 = (s2, false).
Proof.
  intros E Hr.
  assert (u ∈ enqueued s1) as H1.
  { unfold mark_enqueued in E. destruct (_ || _ || _); [discriminate|].
    injection E as <-. simpl. set_solver. }
  assert (u ∈ enqueued s2) as H2.
  { clear E. induction Hr as [x|x y z Hxy Hyz IH]; [exact H1|].
    apply IH. apply (frontier_step_enqueued_mono mp) in Hxy. set_solver. }
  unfold mark_enqueued. rewrite (bool_decide_eq_true_2 _ H2), orb_true_r. reflexivity.
Qed.

Lemma mark_enqueued_at_most_once_witness :
  mark_enqueued "a" (mkCrawlerState ∅ ∅ 0 false)
    = (mkCrawlerState ∅ {["a"]} 0 false, true)
  /\ rtc (frontier_step 5) (mkCrawlerState ∅ {["a"]} 0 false)
        (mark_visited "a" (mkCrawlerState ∅ {["a"]} 0 false))
  /\ mark_enqueued "a" (mark_visited "a" (mkCrawlerState ∅ {["a"]} 0 false))
     = (mark_visited "a" (mkCrawlerState ∅ {["a"]} 0 false), false).
Proof.
  assert (E : mark_enqueued "a" (mkCrawlerState ∅ ∅ 0 false)
              = (mkCrawlerState ∅ {["a"]} 0 false, true)).
  { unfold mark_enqueued. simpl. rewrite union_empty_r_L. reflexivity. }
  assert (Hr : rtc (frontier_step 5) (mkCrawlerState ∅ {["a"]} 0 false)
                 (mark_visited "a" (mkCrawlerState ∅ {["a"]} 0 false))).
  { apply rtc_once. apply step_mark_visited. }
  split; [exact E|]. split; [exact Hr|].
  exact (mark_enqueued_at_most_once 5 "a" _ _ _ E Hr).
Defined.

End FrontierProperties.

Section DecayProperties.

Open Scope R_scope.

(** A sweep keeps every document and the click log; it only rewrites the
    counters and the score of each document: identity fields and click
    timestamps are kept, an absent [clicks_total] becomes [0], and
    [recent_clicks] becomes [0] or a value of at least [0.01] that is no
    larger than the old one. *)
Theorem apply_decay_preserves (clock_ms : Z) (st : es_state) (k : string) :
  clicks_log (apply_decay clock_ms st) = clicks_log st
  /\ (is_Some (pages (apply_decay clock_ms st) !! k) <-> is_Some (pages st !! k))
  /\ forall d, pages st !! k = Some d ->
     exists d' r', pages (apply_decay clock_ms st) !! k = Some d'
       /\ url d' = url d /\ title d' = title d /\ summary d' = summary d /\ content d' = content d
       /\ last_clicked_at_ms d' = last_clicked_at_ms d /\ last_clicked_at d' = last_clicked_at d
       /\ clicks_total d' = Some (default 0%Z (clicks_total d))
       /\ recent_clicks d' = Some r'
       /\ (r' = 0 \/ 1 / 100 <= r')
       /\ r' <= Rmax 0 (default 0 (recent_clicks d)).
Proof.
  split; [reflexivity|]. split.
  - simpl. rewrite lookup_fmap. destruct (pages st !! k); simpl; split; intros [? ?]; eauto;
      discriminate.
  - intros d Hd. simpl. rewrite lookup_fmap, Hd. simpl.
    unfold decay_script, RECENT_CLICK_DECAY_MULTIPLIER.
    set (r0 := default 0 (recent_clicks d)).
    destruct (Rlt_dec (r0 * (85 / 100)) (1 / 100)) as [Hl|Hl].
    + eexists; exists 0. do 9 (split; [reflexivity|]). split; [left; reflexivity|].
      apply Rmax_l.
    + eexists; exists (r0 * (85 / 100)). do 9 (split; [reflexivity|]). split; [right; lra|].
      rewrite Rmax_right by lra. lra.
Qed.

End DecayProperties.

(* ===================================================================== *)
(** ** Repeated decay and click recording *)
(* ===================================================================== *)

Section DecayIterLemmas.

Open Scope R_scope.

Lemma decay_script_step (now_ms : Z) (d : page_doc) :
  exists r', recent_clicks (decay_script now_ms RECENT_CLICK_DECAY_MULTIPLIER RANKING_DECAY_PER_HOUR d)
             = Some r'
    /\ 0 <= r' <= Rmax 0 (default 0 (recent_clicks d)) * (85 / 100)
    /\ (r' < 1 / 100 -> r' = 0).
Proof.
  unfold decay_script, RECENT_CLICK_DECAY_MULTIPLIER. simpl.
  set (r0 := default 0 (recent_clicks d)).
  destruct (Rlt_dec (r0 * (85 / 100)) (1 / 100)) as [Hl|Hl].
  - exists 0. split; [reflexivity|]. split; [|auto].
    split; [lra|]. apply Rmult_le_pos; [apply Rmax_l|lra].
  - exists (r0 * (85 / 100)). split; [reflexivity|]. split; [|intros; lra].
    split; [lra|]. rewrite Rmax_right by lra. lra.
Qed.

Lemma apply_decays_lookup (clocks : list Z) :
  forall (st : es_state) (k : string) (d : page_doc),
  pages st !! k = Some d ->
  exists d', pages (apply_decays clocks st) !! k = Some d'
    /\ url d' = url d
    /\ Rmax 0 (default 0 (recent_clicks d'))
       <= Rmax 0 (default 0 (recent_clicks d)) * (85 / 100) ^ List.length clocks
    /\ (clocks <> [] -> exists r', recent_clicks d' = Some r' /\ (r' < 1 / 100 -> r' = 0)).
Proof.
  induction clocks as [|c cs IH]; intros st k d Hd; simpl.
  - exists d. split; [exact Hd|]. split; [reflexivity|]. split; [lra|]. congruence.
  - assert (Hd1 : pages (apply_decay c st) !! k
                  = Some (decay_script c RECENT_CLICK_DECAY_MULTIPLIER RANKING_DECAY_PER_HOUR d)).
    { simpl. rewrite lookup_fmap, Hd. reflexivity. }
    destruct (IH _ _ _ Hd1) as (d' & Hl & Hu & Hb & Hz).
    destruct (decay_script_step c d) as (r1 & Hr1 & [Hr1a Hr1b] & Hr1z).
    exists d'. split; [exact Hl|]. split; [rewrite Hu; reflexivity|]. split.
    + rewrite Hr1 in Hb. simpl in Hb. rewrite (Rmax_right 0 r1) in Hb by lra.
      eapply Rle_trans; [exact Hb|].
      replace (Rmax 0 (default 0 (recent_clicks d)) * (85 / 100 * (85 / 100) ^ List.length cs))
        with (Rmax 0 (default 0 (recent_clicks d)) * (85 / 100) * (85 / 100) ^ List.length cs) by ring.
      apply Rmult_le_compat_r; [apply pow_le; lra | exact Hr1b].
    + intros _. destruct cs as [|c' cs'].
      * cbn [apply_decays] in Hl. rewrite Hd1 in Hl. injection Hl as <-. exists r1. auto.
      * apply Hz. discriminate.
Qed.

End DecayIterLemmas.

Section DecayIterProperties.

Open Scope R_scope.

(** Without new clicks, repeated sweeps bring every document's
    [recent_clicks] to exactly [0]: the multiplier [0.85 < 1] shrinks it
    geometrically and the floor at [0.01] sets it to [0]. *)
Theorem apply_decays_recent_clicks_vanish (st : es_state) (k : string) (d : page_doc) :
  pages st !! k = Some d ->
  exists N : nat, forall clocks : list Z, (N <= List.length clocks)%nat ->
    exists d', pages (apply_decays clocks st) !! k = Some d'
      /\ url d' = url d /\ recent_clicks d' = Some 0.
Proof.
  intros Hd.
  set (M := Rmax 0 (default 0 (recent_clicks d))).
  assert (HM : 0 <= M) by apply Rmax_l.
  assert (Hy : 0 < (1 / 100) / (M + 1)) by (apply Rdiv_lt_0_compat; lra).
  assert (Habs : Rabs (85 / 100) < 1) by (rewrite Rabs_right; lra).
  destruct (pow_lt_1_zero (85 / 100) Habs _ Hy) as [N HN].
  exists (S N). intros clocks Hlen.
  destruct (apply_decays_lookup clocks st k d Hd) as (d' & Hl & Hu & Hb & Hz).
  exists d'. split; [exact Hl|]. split; [exact Hu|].
  destruct (Hz ltac:(destruct clocks; simpl in Hlen; [lia|discriminate])) as (r' & Hr' & Hr'z).
  rewrite Hr'. f_equal. apply Hr'z.
  specialize (HN (List.length clocks) ltac:(lia)).
  rewrite Rabs_right in HN by (apply Rle_ge, pow_le; lra).
  rewrite Hr' in Hb. simpl in Hb. fold M in Hb.
  assert (Hp : 0 <= (85 / 100) ^ List.length clocks) by (apply pow_le; lra).
  assert (M * (85 / 100) ^ List.length clocks <= M * ((1 / 100) / (M + 1)))
    by (apply Rmult_le_compat_l; lra).
  assert (M * ((1 / 100) / (M + 1)) < 1 / 100).
  { unfold Rdiv. rewrite Rmult_1_l.
    apply (Rmult_lt_reg_r (M + 1)); [lra|].
    field_simplify; lra. }
  pose proof (Rmax_r 0 r'). lra.
Qed.

End DecayIterProperties.

Section ClickProperties.

Open Scope R_scope.


End ClickProperties.

(* ===================================================================== *)
(** ** The crawl loop *)
(* ===================================================================== *)

Section CrawlLemmas.

Lemma enqueue_all_spec (links : list string) :
  forall (s s' : Crawler_state) (fresh : list string),
  enqueue_all links s = (s', fresh) ->
  NoDup fresh
  /\ (forall x, In x fresh -> (x ∉ enqueued s) /\ In x links /\ x ∈ enqueued s')
  /\ enqueued s ⊆ enqueued s'
  /\ visited s' = visited s /\ pages_crawled s' = pages_crawled s /\ stop_event s' = stop_event s.
Proof.
  induction links as [|l ls IH]; intros s s' fresh E; simpl in E.
  - injection E as <- <-. split; [constructor|]. split; [intros x []|].
    split; [set_solver|]. auto.
  - destruct (mark_enqueued l s) as [s1 b] eqn:Em.
    destruct (enqueue_all ls s1) as [s2 q] eqn:Eq.
    injection E as <- <-.
    destruct (IH _ _ _ Eq) as (Hnd & Hin & Hsub & Hv & Hp & Hs).
    unfold mark_enqueued in Em.
    destruct (bool_decide (l ∈ visited s) || bool_decide (l ∈ enqueued s) || stop_event s) eqn:Eb.
    + injection Em as <- <-. split; [exact Hnd|]. split.
      * intros x Hx. destruct (Hin x Hx) as (? & ? & ?). split; [auto|]. split; [right; auto|auto].
      * auto.
    + injection Em as <- <-. simpl in *.
      apply orb_false_iff in Eb as [Eb Est]. apply orb_false_iff in Eb as [_ Ee].
      apply bool_decide_eq_false_1 in Ee.
      split; [|split; [|split]].
      * constructor; [|exact Hnd]. intros Hl. apply list_elem_of_In in Hl. destruct (Hin l Hl) as [Hn _]. set_solver.
      * intros x [<-|Hx].
        -- split; [exact Ee|]. split; [left; reflexivity|]. apply Hsub. set_solver.
        -- destruct (Hin x Hx) as (? & ? & ?). split; [set_solver|]. split; [right; auto|auto].
      * set_solver.
      * auto.
Qed.

Lemma extract_links_netloc (urljoin_resolve : string -> string -> string)
    (drop_fragment urlparse_netloc : string -> string) (hrefs : list string) (base l : string) :
  In l (extract_links urljoin_resolve drop_fragment urlparse_netloc true hrefs base) ->
  urlparse_netloc l = urlparse_netloc base.
Proof.
  induction hrefs as [|h hs IH]; cbn [extract_links]; [intros []|].
  destruct (normalize_url urljoin_resolve drop_fragment base (Some h)) as [n|]; [|exact IH].
  destruct (Py.truthy n && same_domain urlparse_netloc true base n) eqn:E; [|exact IH].
  intros [<-|Hin]; [|auto].
  apply andb_true_iff in E as [_ E]. unfold same_domain in E. simpl in E.
  apply String.eqb_eq in E. auto.
Qed.

Lemma ensure_rules_stored (user_agent : string) (py_float : string -> option R)
    (urlparse_scheme urlparse_netloc : string -> string) (respond : nat -> string -> http_result)
    (u : string) (st : RobotsManager_state) :
  rules (ensure_rules user_agent py_float urlparse_scheme urlparse_netloc respond u st).1
    !! domain_key urlparse_scheme urlparse_netloc u
  = Some (ensure_rules user_agent py_float urlparse_scheme urlparse_netloc respond u st).2.
Proof.
  unfold ensure_rules; cbv zeta.
  destruct (rules st !! domain_key urlparse_scheme urlparse_netloc u) eqn:E; simpl; [exact E|].
  apply lookup_insert_eq.
Qed.

Lemma NoDup_move_to_end (u : string) (q r : list string) :
  NoDup ((u :: q) ++ r) -> NoDup (q ++ r ++ [u]).
Proof.
  intros H. assert (Hp : (u :: q) ++ r ≡ₚ q ++ r ++ [u]).
  { simpl. rewrite app_assoc. apply Permutation_cons_append. }
  rewrite <- Hp. exact H.
Qed.

End CrawlLemmas.

Section CrawlProperties.

Variable py_float : string -> option R.
Variables (urlparse_scheme urlparse_netloc urlparse_path urlparse_query : string -> string).
Variables (urljoin_resolve : string -> string -> string) (drop_fragment : string -> string).
Variable respond : nat -> string -> http_result.
Variable get : string -> Z -> http_result.
Variable hrefs_of : string -> list string.
Variables (max_pages max_retries : Z) (retry_backoff : R) (same_domain_only : bool).

Local Abbreviation step := (worker_step py_float urlparse_scheme urlparse_netloc urlparse_path
  urlparse_query urljoin_resolve drop_fragment respond get hrefs_of max_pages max_retries
  retry_backoff same_domain_only).
Local Abbreviation inv := (crawl_inv urlparse_scheme urlparse_netloc urlparse_path urlparse_query get
  max_pages max_retries retry_backoff same_domain_only).

Lemma worker_step_inv (seeds : list string) (w w' : crawl_world) :
  inv seeds w -> step w = Some w' -> inv seeds w'.
Proof.
  intros (Hnd & Henq & Hlen & Hpc & Hres & Hdom) E. unfold worker_step in E.
  destruct (cw_queue w) as [|u q] eqn:Eq; [discriminate|].
  assert (Hnd' : NoDup (q ++ map fst (cw_results w))).
  { simpl in Hnd. apply NoDup_cons in Hnd as [_ Hnd]. exact Hnd. }
  assert (Henq' : forall x, In x (q ++ map fst (cw_results w)) -> x ∈ enqueued (cw_crawler w)).
  { intros x Hx. apply Henq. right. exact Hx. }
  assert (Hdom' : same_domain_only = true -> forall x, In x (q ++ map fst (cw_results w)) ->
                  exists s, In s (effective_seeds seeds) /\ urlparse_netloc x = urlparse_netloc s).
  { intros Hs x Hx. apply Hdom; [exact Hs|]. right. exact Hx. }
  set (rm := (ensure_rules USER_AGENT py_float urlparse_scheme urlparse_netloc respond u
                (cw_robots w)).1) in E.
  assert (Hkeep : forall d r, rules (cw_robots w) !! d = Some r -> rules rm !! d = Some r).
  { intros d r H. unfold rm. apply ensure_rules_keeps. exact H. }
  assert (Hres' : forall u0 h, In (u0, h) (cw_results w) ->
      (exists r, rules rm !! domain_key urlparse_scheme urlparse_netloc u0 = Some r
                 /\ is_allowed r (robots_path urlparse_path urlparse_query u0) = true)
      /\ (exists tr, fetch max_retries retry_backoff u0 (get u0) = (tr, Fetched h))).
  { intros u0 h Hin. destruct (Hres u0 h Hin) as [(r & Hr & Ha) Hf]. split; [|exact Hf].
    exists r. split; [apply Hkeep; exact Hr | exact Ha]. }
  destruct (stop_event (cw_crawler w)) eqn:Est.
  { injection E as <-. exact (conj Hnd' (conj Henq' (conj Hlen (conj Hpc (conj Hres Hdom'))))). }
  destruct (negb (RobotsManager_is_allowed urlparse_scheme urlparse_netloc urlparse_path
                    urlparse_query rm u)) eqn:Eal.
  { injection E as <-. exact (conj Hnd' (conj Henq' (conj Hlen (conj Hpc (conj Hres' Hdom'))))). }
  apply negb_false_iff in Eal.
  destruct (fetch max_retries retry_backoff u (get u)) as [tr [html|ex]] eqn:Ef; simpl in E.
  2: { injection E as <-. exact (conj Hnd' (conj Henq' (conj Hlen (conj Hpc (conj Hres' Hdom'))))). }
  unfold increment_pages in E.
  destruct (Z.geb (pages_crawled (cw_crawler w)) max_pages) eqn:Eg.
  { injection E as <-. exact (conj Hnd' (conj Henq' (conj Hlen (conj Hpc (conj Hres' Hdom'))))). }
  rewrite Z.geb_leb in Eg. apply Z.leb_gt in Eg.
  set (s1 := mkCrawlerState (visited (cw_crawler w)) (enqueued (cw_crawler w))
               (pages_crawled (cw_crawler w) + 1)
               (stop_event (cw_crawler w) || Z.geb (pages_crawled (cw_crawler w) + 1) max_pages)) in E.
  assert (Hnew : (exists r, rules rm !! domain_key urlparse_scheme urlparse_netloc u = Some r
                   /\ is_allowed r (robots_path urlparse_path urlparse_query u) = true)
                 /\ (exists tr0, fetch max_retries retry_backoff u (get u) = (tr0, Fetched html))).
  { split; [|exists tr; exact Ef].
    unfold RobotsManager_is_allowed in Eal. unfold rm in Eal |- *. rewrite ensure_rules_stored in Eal |- *.
    eexists; split; [reflexivity|exact Eal]. }
  assert (Hres2 : forall u0 h, In (u0, h) (cw_results w ++ [(u, html)])%list ->
      (exists r, rules rm !! domain_key urlparse_scheme urlparse_netloc u0 = Some r
                 /\ is_allowed r (robots_path urlparse_path urlparse_query u0) = true)
      /\ (exists tr0, fetch max_retries retry_backoff u0 (get u0) = (tr0, Fetched h))).
  { intros u0 h Hin. apply in_app_or in Hin as [Hin|[Heq|[]]]; [auto|].
    injection Heq as <- <-. exact Hnew. }
  assert (Hlen2 : List.length (cw_results w ++ [(u, html)])%list
                  = Z.to_nat (pages_crawled (cw_crawler w) + 1)).
  { rewrite length_app, Hlen. simpl. lia. }
  assert (Hmap : map fst (cw_results w ++ [(u, html)])%list = (map fst (cw_results w) ++ [u])%list).
  { rewrite map_app. reflexivity. }
  assert (Hnd2 : NoDup (q ++ map fst (cw_results w) ++ [u])).
  { apply NoDup_move_to_end. exact Hnd. }
  assert (Hu : u ∈ enqueued (cw_crawler w)) by (apply Henq; left; reflexivity).
  destruct (stop_event s1) eqn:Est2.
  { injection E as <-. unfold crawl_inv; cbn [cw_queue cw_results cw_crawler cw_robots].
    rewrite Hmap. split; [|split; [|split; [|split; [|split]]]].
    - exact Hnd2.
    - intros x Hx. apply in_app_or in Hx as [Hx|Hx]; [apply Henq'; apply in_or_app; auto|].
      apply in_app_or in Hx as [Hx|[<-|[]]]; [|exact Hu].
      apply Henq'. apply in_or_app. auto.
    - exact Hlen2.
    - cbn. lia.
    - exact Hres2.
    - intros Hs x Hx. apply in_app_or in Hx as [Hx|Hx]; [apply Hdom'; [exact Hs|]; apply in_or_app; auto|].
      apply in_app_or in Hx as [Hx|[<-|[]]].
      + apply Hdom'; [exact Hs|]. apply in_or_app. auto.
      + apply Hdom; [exact Hs | left; reflexivity]. }
  destruct (enqueue_all (extract_links urljoin_resolve drop_fragment urlparse_netloc
                           same_domain_only (hrefs_of html) u) (mark_visited u s1))
    as [s3 fresh] eqn:Ee.
  injection E as <-.
  destruct (enqueue_all_spec _ _ _ _ Ee) as (Hfnd & Hfin & Hfsub & Hfv & Hfp & Hfs).
  unfold crawl_inv; cbn [cw_queue cw_results cw_crawler cw_robots]. rewrite Hmap.
  split; [|split; [|split; [|split; [|split]]]].
  - rewrite <- app_assoc. apply NoDup_app. split; [exact (proj1 (proj1 (NoDup_app _ _) Hnd2))|].
    split; [|apply NoDup_app; split; [exact Hfnd|]; split].
    + intros x Hxq Hx. apply list_elem_of_In in Hxq, Hx. apply in_app_or in Hx as [Hx|Hx].
      * destruct (Hfin x Hx) as [Hn _]. apply Hn. apply Henq'. apply in_or_app. left. exact Hxq.
      * apply NoDup_app in Hnd2 as (_ & Hdis & _).
        apply (Hdis x); apply list_elem_of_In; auto.
    + intros x Hx Hx'. apply list_elem_of_In in Hx, Hx'. destruct (Hfin x Hx) as [Hn _].
      apply in_app_or in Hx' as [Hx'|[<-|[]]].
      * apply Hn. apply Henq'. apply in_or_app. right. exact Hx'.
      * apply Hn. exact Hu.
    + apply NoDup_app in Hnd2 as (_ & _ & Hr). exact Hr.
  - intros x Hx. rewrite <- app_assoc in Hx. apply in_app_or in Hx as [Hx|Hx].
    { apply Hfsub. apply Henq'. apply in_or_app. left. exact Hx. }
    apply in_app_or in Hx as [Hx|Hx].
    { destruct (Hfin x Hx) as (_ & _ & H). exact H. }
    apply in_app_or in Hx as [Hx|[<-|[]]].
    { apply Hfsub. apply Henq'. apply in_or_app. right. exact Hx. }
    apply Hfsub. exact Hu.
  - rewrite Hfp. exact Hlen2.
  - rewrite Hfp. cbn. lia.
  - exact Hres2.
  - intros Hs x Hx. rewrite <- app_assoc in Hx. apply in_app_or in Hx as [Hx|Hx].
    { apply Hdom'; [exact Hs|]. apply in_or_app. left. exact Hx. }
    apply in_app_or in Hx as [Hx|Hx].
    { destruct (Hfin x Hx) as (_ & Hl & _). rewrite Hs in Hl.
      rewrite (extract_links_netloc _ _ _ _ _ _ Hl). apply Hdom; [exact Hs | left; reflexivity]. }
    apply in_app_or in Hx as [Hx|[<-|[]]].
    { apply Hdom'; [exact Hs|]. apply in_or_app. right. exact Hx. }
    apply Hdom; [exact Hs | left; reflexivity].
Qed.

Lemma crawl_init_inv (seeds : list string) :
  (0 <= max_pages)%Z -> inv seeds (crawl_init seeds).
Proof.
  intros Hmp. unfold crawl_init.
  destruct (enqueue_all (effective_seeds seeds) (mkCrawlerState ∅ ∅ 0 false)) as [s q] eqn:E.
  destruct (enqueue_all_spec _ _ _ _ E) as (Hnd & Hin & _ & _ & Hp & _).
  simpl in Hp. unfold crawl_inv; cbn [cw_queue cw_results cw_crawler cw_robots map]. rewrite app_nil_r.
  split; [exact Hnd|]. split; [intros x Hx; apply (Hin x Hx)|].
  split; [rewrite Hp; reflexivity|]. split; [lia|]. split; [intros u h []|].
  intros _ x Hx. exists x. split; [apply (Hin x Hx) | reflexivity].
Qed.

Lemma crawl_run_inv (seeds : list string) (fuel : nat) :
  forall w, inv seeds w ->
  inv seeds (crawl_run py_float urlparse_scheme urlparse_netloc urlparse_path urlparse_query
               urljoin_resolve drop_fragment respond get hrefs_of max_pages max_retries
               retry_backoff same_domain_only fuel w).
Proof.
  induction fuel as [|fuel IH]; intros w Hw; simpl; [exact Hw|].
  destruct (step w) as [w'|] eqn:E; [|exact Hw].
  apply IH. exact (worker_step_inv seeds w w' Hw E).
Qed.

(** What the crawl yields, after any number of worker iterations from
    [crawl()]'s seeding (with [max_pages >= 0]): each URL at most once,
    exactly [pages_crawled] pages and never more than [max_pages]; each
    yielded URL is allowed by the robots rules the crawl holds at the end,
    comes with the body [fetch] returned for it, and with [same_domain_only]
    has the host of one of the seeds. *)
Theorem crawl_yields_invariants (seeds : list string) (fuel : nat) (Hmp : (0 <= max_pages)%Z) :
  let w := crawl_run py_float urlparse_scheme urlparse_netloc urlparse_path urlparse_query
             urljoin_resolve drop_fragment respond get hrefs_of max_pages max_retries
             retry_backoff same_domain_only fuel (crawl_init seeds) in
  NoDup (map fst (cw_results w))
  /\ List.length (cw_results w) = Z.to_nat (pages_crawled (cw_crawler w))
  /\ (pages_crawled (cw_crawler w) <= max_pages)%Z
  /\ (forall u h, In (u, h) (cw_results w) ->
        RobotsManager_is_allowed urlparse_scheme urlparse_netloc urlparse_path urlparse_query
          (cw_robots w) u = true
        /\ (exists tr, fetch max_retries retry_backoff u (get u) = (tr, Fetched h))
        /\ (same_domain_only = true ->
            exists s, In s (effective_seeds seeds) /\ urlparse_netloc u = urlparse_netloc s)).
Proof.
  intros w.
  destruct (crawl_run_inv seeds fuel (crawl_init seeds) (crawl_init_inv seeds Hmp))
    as (Hnd & _ & Hlen & Hpc & Hres & Hdom).
  fold w in Hnd, Hlen, Hpc, Hres, Hdom.
  split; [apply NoDup_app in Hnd as (_ & _ & H); exact H|].
  split; [exact Hlen|]. split; [lia|].
  intros u h Hin. destruct (Hres u h Hin) as [(r & Hr & Ha) Hf].
  split; [|split; [exact Hf|]].
  - unfold RobotsManager_is_allowed. rewrite Hr. exact Ha.
  - intros Hs. apply (Hdom Hs). apply in_or_app. right.
    apply in_map_iff. exists (u, h). auto.
Qed.

End CrawlProperties.

Lemma crawl_yields_invariants_witness :
  (0 <= 2)%Z
  /\ List.length (cw_results
       (crawl_run (fun _ => None) (fun _ => "https") (fun _ => "a") (fun _ => "/") (fun _ => "")
          (fun _ l => l) (fun l => l) (fun _ _ => ClientError "x")
          (fun _ _ => HttpResponse 200 (Some "p")) (fun _ => ["b"; "c"; "d"])
          2 1 1 true 10 (crawl_init ["s"])))
     = Z.to_nat (pages_crawled (cw_crawler
       (crawl_run (fun _ => None) (fun _ => "https") (fun _ => "a") (fun _ => "/") (fun _ => "")
          (fun _ l => l) (fun l => l) (fun _ _ => ClientError "x")
          (fun _ _ => HttpResponse 200 (Some "p")) (fun _ => ["b"; "c"; "d"])
          2 1 1 true 10 (crawl_init ["s"])))).
Proof.
  assert (Hmp : (0 <= 2)%Z) by lia. split; [exact Hmp|].
  exact (proj1 (proj2 (crawl_yields_invariants (fun _ => None) (fun _ => "https") (fun _ => "a")
    (fun _ => "/") (fun _ => "") (fun _ l => l) (fun l => l) (fun _ _ => ClientError "x")
    (fun _ _ => HttpResponse 200 (Some "p")) (fun _ => ["b"; "c"; "d"]) 2 1 1 true
    ["s"] 10 Hmp))).
Defined.

(** Witnesses of the properties of the additional functions. *)

Lemma looks_like_code_or_css_bounds_witness :
  forallb PyText.isalnum (list_ascii_of_string "abc") = true
  /\ (String.length "abc" <= 400)%nat
  /\ looks_like_code_or_css "abc" = false.
Proof.
  destruct looks_like_code_or_css_bounds as [_ [_ H]].
  split; [reflexivity|]. split; [simpl; lia|]. apply H; [reflexivity | simpl; lia].
Defined.

Lemma parse_html_derived_fields_witness :
  Py.truthy (pd_content (parse_html "now" "http://a/" sample_view)) = true
  /\ Py.truthy (pd_meta_description (parse_html "now" "http://a/" sample_view)) = true.
Proof.
  assert (Hc : Py.truthy (pd_content (parse_html "now" "http://a/" sample_view)) = true)
    by (vm_compute; reflexivity).
  split; [exact Hc|].
  exact (proj1 (proj2 (proj2 (proj2 (proj2 (proj2 (proj2
           (parse_html_derived_fields "now" "http://a/" sample_view))))))) Hc).
Defined.

Lemma parse_html_blank_description_witness :
  Py.truthy (meta_content blank_description_view "name" "description") = true
  /\ blank (meta_content blank_description_view "name" "description") = true
  /\ pd_meta_description (parse_html "now" "http://a/" blank_description_view)
     = PyText.prefix 160 (parse_content (main_text blank_description_view)).
Proof.
  assert (H1 : Py.truthy (meta_content blank_description_view "name" "description") = true)
    by reflexivity.
  assert (H2 : blank (meta_content blank_description_view "name" "description") = true)
    by reflexivity.
  split; [exact H1|]. split; [exact H2|].
  exact (proj2 (parse_html_blank_description "now" "http://a/" blank_description_view H1 H2)).
Defined.

Lemma with_click_defaults_idempotent_witness :
  with_click_defaults 5 fresh_click_fields = Some (mkClickFields (Val 0%Z) (Val 0%R) (Val 0%R) Null Null)
  /\ with_click_defaults 5 (mkClickFields (Val 0%Z) (Val 0%R) (Val 0%R) Null Null)
     = Some (mkClickFields (Val 0%Z) (Val 0%R) (Val 0%R) Null Null).
Proof.
  assert (H : with_click_defaults 5 fresh_click_fields
              = Some (mkClickFields (Val 0%Z) (Val 0%R) (Val 0%R) Null Null))
    by apply with_click_defaults_fresh_fields.
  split; [exact H|]. exact (with_click_defaults_idempotent 5 _ _ H).
Defined.

Lemma with_click_defaults_score_rules_witness :
  (f_ranking_score (mkClickFields Null Missing Missing Missing Missing) = Missing
   \/ f_ranking_score (mkClickFields Null Missing Missing Missing Missing) = Null
   \/ f_ranking_score (mkClickFields Null Missing Missing Missing Missing) = Val 0%R)
  /\ (f_clicks_total (mkClickFields Null Missing Missing Missing Missing) = Null
      \/ f_recent_clicks (mkClickFields Null Missing Missing Missing Missing) = Null)
  /\ with_click_defaults 5 (mkClickFields Null Missing Missing Missing Missing) = None.
Proof.
  assert (H1 : f_ranking_score (mkClickFields Null Missing Missing Missing Missing) = Missing
               \/ f_ranking_score (mkClickFields Null Missing Missing Missing Missing) = Null
               \/ f_ranking_score (mkClickFields Null Missing Missing Missing Missing) = Val 0%R)
    by (left; reflexivity).
  assert (H2 : f_clicks_total (mkClickFields Null Missing Missing Missing Missing) = Null
               \/ f_recent_clicks (mkClickFields Null Missing Missing Missing Missing) = Null)
    by (left; reflexivity).
  split; [exact H1|]. split; [exact H2|].
  exact (proj2 (with_click_defaults_score_rules 5 _) H1 H2).
Defined.

Lemma search_result_snippets_witness :
  Py.truthy (parse_content (main_text sample_view)) = true
  /\ sr_url (search_result_of_hit [] (to_page_doc (parse_html "now" "http://a/" sample_view)
                                        fresh_click_fields)) = "http://a/".
Proof.
  assert (H : Py.truthy (parse_content (main_text sample_view)) = true) by (vm_compute; reflexivity).
  split; [exact H|].
  exact (proj1 (proj1 search_result_snippets "now" "http://a/" sample_view fresh_click_fields H)).
Defined.

Lemma RobotsManager_is_allowed_default_witness :
  rules robots_manager_init !! domain_key (fun _ => "https") (fun _ => "a") "https://a/x" = None
  /\ domain_key (fun _ => "https") (fun _ => "a") "https://a/y"
     = domain_key (fun _ => "https") (fun _ => "a") "https://a/x"
  /\ RobotsManager_is_allowed (fun _ => "https") (fun _ => "a") (fun _ => "/y") (fun _ => "")
       (ensure_rules USER_AGENT (fun _ => None) (fun _ => "https") (fun _ => "a")
          (fun _ _ => HttpResponse 404 None) "https://a/x" robots_manager_init).1 "https://a/y"
     = true.
Proof.
  assert (H1 : rules robots_manager_init !! domain_key (fun _ => "https") (fun _ => "a") "https://a/x"
               = None) by reflexivity.
  assert (H2 : domain_key (fun _ => "https") (fun _ => "a") "https://a/y"
               = domain_key (fun _ => "https") (fun _ => "a") "https://a/x") by reflexivity.
  split; [exact H1|]. split; [exact H2|].
  apply (proj2 (RobotsManager_is_allowed_default (fun _ => "https") (fun _ => "a") (fun _ => "/y")
                  (fun _ => "") USER_AGENT (fun _ => None) (fun _ _ => HttpResponse 404 None)
                  robots_manager_init "https://a/x" "https://a/y")); [exact H1 | simpl; lia | exact H2].
Defined.

Lemma RobotsManager_disallow_root_witness :
  rules disallow_all_manager !! domain_key (fun _ => "https") (fun _ => "a") "https://a/x?q=1"
    = Some (mkRobotsRules [] ["/"] None)
  /\ RobotsManager_is_allowed (fun _ => "https") (fun _ => "a") (fun _ => "/x") (fun _ => "q=1")
       disallow_all_manager "https://a/x?q=1" = false.
Proof.
  assert (H : rules disallow_all_manager !! domain_key (fun _ => "https") (fun _ => "a") "https://a/x?q=1"
              = Some (mkRobotsRules [] ["/"] None)) by reflexivity.
  split; [exact H|].
  apply (proj2 (RobotsManager_disallow_root (fun _ => "https") (fun _ => "a") (fun _ => "/x")
                  (fun _ => "q=1") disallow_all_manager "https://a/x?q=1" None) H).
  right. reflexivity.
Defined.

Lemma wait_for_crawl_delay_cases_witness :
  (0 < crawl_delay_or_zero (default empty_rules (rules delayed_manager !!
         domain_key (fun _ => "https") (fun _ => "a") "https://a/x")))%R
  /\ exists sleeps,
       wait_for_crawl_delay (fun _ => "https") (fun _ => "a") delayed_manager ∅ "https://a/x" 0 1
       = (<["https://a" := (1 + 2)%R]> ∅, sleeps).
Proof.
  assert (H : (0 < crawl_delay_or_zero (default empty_rules (rules delayed_manager !!
         domain_key (fun _ => "https") (fun _ => "a") "https://a/x")))%R).
  { change (0 < 2)%R. lra. }
  split; [exact H|].
  destruct (proj2 (wait_for_crawl_delay_cases (fun _ => "https") (fun _ => "a") delayed_manager ∅
                     "https://a/x" 0 1) H) as (sleeps & E & _).
  exists sleeps. exact E.
Defined.

Lemma wait_for_crawl_delay_spacing_witness :
  wait_for_crawl_delay (fun _ => "https") (fun _ => "a") delayed_manager ∅ "https://a/x" 0 1
    = (<["https://a" := (1 + 2)%R]> ∅, [])
  /\ wait_for_crawl_delay (fun _ => "https") (fun _ => "a") delayed_manager
       (<["https://a" := (1 + 2)%R]> ∅) "https://a/y" 1 3
     = (<["https://a" := (3 + 2)%R]> (<["https://a" := (1 + 2)%R]> ∅), [(1 + 2 - 1)%R])
  /\ (1 + 2 <= 3)%R.
Proof.
  assert (Hx : domain_key (fun _ => "https") (fun _ => "a") "https://a/x" = "https://a")
    by reflexivity.
  assert (Hy : domain_key (fun _ => "https") (fun _ => "a") "https://a/y" = "https://a")
    by reflexivity.
  assert (Hr : rules delayed_manager !! "https://a" = Some (mkRobotsRules [] [] (Some 2%R)))
    by reflexivity.
  assert (E1 : wait_for_crawl_delay (fun _ => "https") (fun _ => "a") delayed_manager ∅ "https://a/x" 0 1
               = (<["https://a" := (1 + 2)%R]> ∅, [])).
  { unfold wait_for_crawl_delay. rewrite Hx, Hr, lookup_empty. cbn [default Datatypes.id crawl_delay_or_zero crawl_delay].
    destruct (Rle_dec 2 0); [lra|]. unfold Rmax.
    destruct (Rle_dec 0 (0 - 0)); destruct (Rlt_dec 0 _); try lra; reflexivity. }
  assert (E2 : wait_for_crawl_delay (fun _ => "https") (fun _ => "a") delayed_manager
                 (<["https://a" := (1 + 2)%R]> ∅) "https://a/y" 1 3
               = (<["https://a" := (3 + 2)%R]> (<["https://a" := (1 + 2)%R]> ∅), [(1 + 2 - 1)%R])).
  { unfold wait_for_crawl_delay. rewrite Hy, Hr, lookup_insert_eq.
    cbn [default Datatypes.id crawl_delay_or_zero crawl_delay].
    destruct (Rle_dec 2 0); [lra|]. unfold Rmax.
    destruct (Rle_dec 0 (1 + 2 - 1)); [|lra]. destruct (Rlt_dec 0 (1 + 2 - 1)); [|lra].
    reflexivity. }
  split; [exact E1|]. split; [exact E2|].
  refine (wait_for_crawl_delay_spacing (fun _ => "https") (fun _ => "a") delayed_manager ∅ _ _
           "https://a/x" "https://a/y" 0 1 1 3 _ _ _ _ E1 E2 _ _).
  - rewrite Hx, Hy. reflexivity.
  - rewrite Hx, Hr. cbn [default Datatypes.id crawl_delay_or_zero crawl_delay]. lra.
  - lra.
  - cbn [fold_right]. lra.
Defined.

Lemma fetch_outcome_cases_witness :
  fetch 2 1 "http://a/" (fun _ => HttpResponse 200 (Some "ok")) = ([Attempt 1], Fetched "ok")
  /\ exists k, (1 <= k <= 2)%Z /\ attempt_outcome (HttpResponse 200 (Some "ok")) = inl "ok".
Proof.
  assert (E : fetch 2 1 "http://a/" (fun _ => HttpResponse 200 (Some "ok")) = ([Attempt 1], Fetched "ok"))
    by reflexivity.
  split; [exact E|].
  destruct (proj1 (fetch_outcome_cases 2 1 "http://a/" (fun _ => HttpResponse 200 (Some "ok")))
              _ _ E) as (k & Hk & _ & Ho & _).
  exists k. split; [exact Hk | exact Ho].
Defined.

Lemma apply_decays_recent_clicks_vanish_witness :
  pages (mkEsState {["u" := clicked_page]} []) !! "u" = Some clicked_page
  /\ exists N : nat, forall clocks : list Z, (N <= List.length clocks)%nat ->
       exists d', pages (apply_decays clocks (mkEsState {["u" := clicked_page]} [])) !! "u" = Some d'
         /\ url d' = "u" /\ recent_clicks d' = Some 0%R.
Proof.
  assert (H : pages (mkEsState {["u" := clicked_page]} []) !! "u" = Some clicked_page) by reflexivity.
  split; [exact H|].
  exact (apply_decays_recent_clicks_vanish _ "u" clicked_page H).
Defined.

